(** * Frost Risks: psychrometric formulas and frost-risk classifier

    A shallow embedding of the computational core of
    [custom_components/frost_risks/sensor.py] (class [FrostRisksSensor],
    the static methods [_compute_*]).

    Modelling choices.
    - A Python [float] is modelled by a real number ([R]); [math.exp],
      [math.log], [math.atan], [math.sqrt] and [math.pow] are the real
      functions, restricted to the domain on which Python returns a value.
      Binary64 rounding of the individual operations, overflow, underflow,
      NaN and infinities are outside the model: statements on computed
      values are made on ranges of inputs, and with margins, on which the
      two arithmetics agree.
    - [round(x, 2)] is rounding to the nearest hundredth, ties to even.
    - A Python exception is an explicit error result ([Raise e]); the
      operands of an expression are evaluated left to right, as Python does.
    - The risk level is a Python [int], modelled by [Z].
    - The tables of [const.py] and the other dictionaries are association
      lists in insertion order; a [FrostRisksSensor] object is a record, and
      a method that assigns to [self] returns the updated record.
    - The host's state machine is a function from entity ids to state
      strings and [float(str)] is a parameter of [async_update]. *)

From Stdlib Require Import Reals Lra Lia ZArith Bool Psatz String List.
Import ListNotations.

Open Scope bool_scope.
Open Scope R_scope.

(** ** Python values and exceptions *)

Inductive exn : Type :=
| ValueError          (* "math domain error" *)
| ZeroDivisionError.  (* "float division by zero" *)

Inductive result (A : Type) : Type :=
| Ok (a : A)
| Raise (e : exn).

Arguments Ok {A} a.
Arguments Raise {A} e.

Definition bind {A B : Type} (m : result A) (k : A -> result B) : result B :=
  match m with
  | Ok a => k a
  | Raise e => Raise e
  end.

Definition returns {A : Type} (m : result A) : Prop := exists a, m = Ok a.

Definition raises {A : Type} (m : result A) : Prop := exists e, m = Raise e.

(** [x / y] on floats. *)
Definition py_div (x y : R) : result R :=
  if Req_dec_T y 0 then Raise ZeroDivisionError else Ok (x / y).

(** [math.log(x)]. *)
Definition math_log (x : R) : result R :=
  if Rlt_dec 0 x then Ok (ln x) else Raise ValueError.

(** [math.sqrt(x)]. *)
Definition math_sqrt (x : R) : result R :=
  if Rle_dec 0 x then Ok (sqrt x) else Raise ValueError.

(** [math.pow(x, y)] for a positive exponent [y] that is not an integer
    (the program only uses [y = 1.5]). *)
Definition math_pow (x y : R) : result R :=
  if Rlt_dec 0 x then Ok (Rpower x y)
  else if Req_dec_T x 0 then Ok 0
  else Raise ValueError.

(** [min(a, b)] and [max(a, b)]: the first argument is kept unless the
    second is strictly smaller (resp. larger). *)
Definition py_min (a b : R) : R := if Rlt_dec b a then b else a.
Definition py_max (a b : R) : R := if Rlt_dec a b then b else a.

(** Comparisons of floats, as booleans. *)
Definition py_leb (x y : R) : bool := if Rle_dec x y then true else false.
Definition py_ltb (x y : R) : bool := if Rlt_dec x y then true else false.
Definition py_geb (x y : R) : bool := py_leb y x.

(** Nearest integer, ties to the even one. *)
Definition round_half_even (x : R) : Z :=
  let f := Int_part x in
  let d := x - IZR f in
  if Rlt_dec d (1 / 2) then f
  else if Rlt_dec (1 / 2) d then (f + 1)%Z
  else if Z.even f then f else (f + 1)%Z.

(** [round(x, ndigits)]. *)
Definition py_round (x : R) (ndigits : nat) : R :=
  IZR (round_half_even (x * 10 ^ ndigits)) / 10 ^ ndigits.

Notation "x <- m ;; k" := (bind m (fun x => k))
  (at level 61, m at next level, right associativity).

Infix "<=?" := py_leb (at level 70, no associativity) : R_scope.
Infix "<?" := py_ltb (at level 70, no associativity) : R_scope.
Infix ">=?" := py_geb (at level 70, no associativity) : R_scope.

(** ** The sensor's computations *)

Module FrostRisksSensor.

Definition _compute_absolute_humidity (temperature humidity : R) : result R :=
  let abs_temp := temperature + 273.15 in
  q <- py_div (17.67 * temperature) (243.5 + temperature) ;;
  let abs_humidity := 6.112 * exp q in
  let abs_humidity := abs_humidity * (humidity / 100.0) in
  let abs_humidity := abs_humidity * 2.1674 in
  abs_humidity <- py_div abs_humidity abs_temp ;;
  Ok (py_round abs_humidity 2).

Definition _compute_dew_point (temperature humidity : R) : result R :=
  let a := 17.27 in
  let b := 237.7 in
  q <- py_div (a * temperature) (b + temperature) ;;
  l <- math_log (humidity / 100.0) ;;
  let alpha := q + l in
  dew_point <- py_div (b * alpha) (a - alpha) ;;
  Ok (py_round dew_point 2).

Definition _compute_frost_point (temperature humidity : R) : result R :=
  dew_point <- _compute_dew_point temperature humidity ;;
  if Rlt_dec dew_point 0 then
    let a := 21.875 in
    let b := 265.5 in
    q <- py_div (a * temperature) (b + temperature) ;;
    l <- math_log (humidity / 100.0) ;;
    let alpha := q + l in
    frost_point <- py_div (b * alpha) (a - alpha) ;;
    Ok (py_round frost_point 2)
  else Ok (py_round dew_point 2).

Definition _compute_freezing_point (temperature humidity : R) : result R :=
  dew_point <- _compute_dew_point temperature humidity ;;
  let T := temperature + 273.15 in
  let Td := dew_point + 273.15 in
  q <- py_div 2954.61 T ;;
  l <- math_log T ;;
  r <- py_div 2671.02 (q + 2.193665 * l - 13.3448) ;;
  let freezing_point := (Td + r - T) - 273.15 in
  Ok (py_round freezing_point 2).

Definition _compute_wet_bulb_temperature (temperature humidity : R)
  : result R :=
  let T := temperature in
  let RH := py_max 0.0 (py_min 100.0 humidity) in
  if Rlt_dec RH 5.0 then Ok (py_round (T - 0.5) 2)
  else
    s <- math_sqrt (RH + 8.313659) ;;
    p <- math_pow RH 1.5 ;;
    let wet_bulb :=
      T * atan (0.151977 * s)
      + atan (T + RH)
      - atan (RH - 1.676331)
      + 0.00391838 * p * atan (0.023101 * RH)
      - 4.686035 in
    Ok (py_round wet_bulb 2).

Definition _compute_vapor_pressure (temperature humidity : R) : result R :=
  q <- py_div (17.67 * temperature) (temperature + 243.5) ;;
  let es := 6.112 * exp q in
  let e := es * (humidity / 100.0) in
  Ok (py_round e 2).

Definition _compute_humidity_ratio (temperature humidity : R) : result R :=
  e <- _compute_vapor_pressure temperature humidity ;;
  let P := 1013.25 in
  q <- py_div e (P - e) ;;
  let W := 0.622 * q in
  Ok (py_round W 6).

(** The five if/elif chains of [_compute_frost_risk_level], each one a
    transformer of the running [risk_level]. *)

Definition temperature_risk (temperature : R) (risk_level : Z) : Z :=
  if temperature <=? -5 then Z.max risk_level 5
  else if temperature <=? -2 then Z.max risk_level 4
  else if temperature <=? 0 then Z.max risk_level 3
  else if temperature <=? 2 then Z.max risk_level 2
  else if temperature <=? 4 then Z.max risk_level 1
  else risk_level.

Definition dew_point_risk (dew_point : R) (risk_level : Z) : Z :=
  if dew_point <=? -5 then Z.max risk_level 4
  else if dew_point <=? -2 then Z.max risk_level 3
  else if dew_point <=? 0 then Z.max risk_level 2
  else if dew_point <=? 2 then Z.max risk_level 1
  else risk_level.

Definition wet_bulb_risk (wet_bulb temperature : R) (risk_level : Z) : Z :=
  if (wet_bulb <=? 0) && (temperature <=? 2) then Z.max risk_level 4
  else if (wet_bulb <=? 1) && (temperature <=? 3) then Z.max risk_level 3
  else risk_level.

Definition freezing_point_risk (freezing_point : R) (risk_level : Z) : Z :=
  if freezing_point <=? -2 then Z.max risk_level 4
  else if freezing_point <=? 0 then Z.max risk_level 3
  else if freezing_point <=? 1 then Z.max risk_level 2
  else risk_level.

Definition abs_humidity_risk (abs_humidity temperature freezing_point : R)
    (risk_level : Z) : Z :=
  if (abs_humidity <? 2.8) && (temperature <=? 1) && (freezing_point <=? 0)
  then Z.max risk_level 1
  else if (abs_humidity >=? 2.8) && (temperature <=? 4)
          && (freezing_point <=? 0.5)
  then Z.max risk_level 2
  else if (abs_humidity >=? 2.8) && (temperature <=? 1)
          && (freezing_point <=? 0)
  then Z.max risk_level 3
  else risk_level.

(** The classifier: the part of [_compute_frost_risk_level] that follows
    the four calls, as a function of the five quantities it reads. *)
Definition risk_level_of
    (temperature dew_point wet_bulb freezing_point abs_humidity : R) : Z :=
  let risk_level := 0%Z in
  let risk_level := temperature_risk temperature risk_level in
  let risk_level := dew_point_risk dew_point risk_level in
  let risk_level := wet_bulb_risk wet_bulb temperature risk_level in
  let risk_level := freezing_point_risk freezing_point risk_level in
  let risk_level :=
    abs_humidity_risk abs_humidity temperature freezing_point risk_level in
  Z.max 0 (Z.min 5 risk_level).

Definition _compute_frost_risk_level (temperature humidity : R) : result Z :=
  dew_point <- _compute_dew_point temperature humidity ;;
  wet_bulb <- _compute_wet_bulb_temperature temperature humidity ;;
  freezing_point <- _compute_freezing_point temperature humidity ;;
  abs_humidity <- _compute_absolute_humidity temperature humidity ;;
  Ok (risk_level_of temperature dew_point wet_bulb freezing_point
        abs_humidity).

End FrostRisksSensor.

Import FrostRisksSensor.

(** ** Auxiliary definitions *)

(** Written after the specification: the Magnus-Tetens inversion with
    constants [a] and [b], applied to a temperature and a relative
    humidity, rounded to 2 decimals. *)
Definition magnus_tetens (a b T RH : R) : result R :=
  q <- py_div (a * T) (b + T) ;;
  l <- math_log (RH / 100) ;;
  d <- py_div (b * (q + l)) (a - (q + l)) ;;
  Ok (py_round d 2).

(** Written after the specification: Stull's arctangent formula. *)
Definition stull (T RH : R) : R :=
  T * atan (0.151977 * sqrt (RH + 8.313659))
  + atan (T + RH)
  - atan (RH - 1.676331)
  + 0.00391838 * Rpower RH 1.5 * atan (0.023101 * RH)
  - 4.686035.

(** Written after the specification: the freezing point from the dry-bulb
    temperature [T] and a dew point [dp], both in degrees Celsius. *)
Definition freezing_point_kelvin (T dp : R) : R :=
  let TK := T + 273.15 in
  let TdK := dp + 273.15 in
  (TdK + 2671.02 / (2954.61 / TK + 2.193665 * ln TK - 13.3448) - TK) - 273.15.

(** The Magnus-Tetens inversion before rounding, where it is defined. *)
Definition magnus_raw (a b T RH : R) : R :=
  let alpha := a * T / (b + T) + ln (RH / 100) in
  b * alpha / (a - alpha).

(** The Magnus saturation vapor pressure in hPa, as the sensor writes it. *)
Definition saturation_pressure (T : R) : R :=
  6.112 * exp (17.67 * T / (T + 243.5)).

(** A value with at most two decimals. *)
Definition two_decimals (x : R) : Prop := exists n : Z, x = IZR n / 100.

(** Terms of the exponential series, by their recurrence. *)
Fixpoint exp_term (x : R) (k : nat) : R :=
  match k with
  | O => 1
  | S k' => exp_term x k' * (x / INR (S k'))
  end.

(** The partial sums of order 8 and 9 at [-x], in Horner form. *)
Definition exp_neg_upper (x : R) : R :=
  1 - x * (1 - x / 2 * (1 - x / 3 * (1 - x / 4 * (1 - x / 5 *
    (1 - x / 6 * (1 - x / 7 * (1 - x / 8))))))).

Definition exp_neg_lower (x : R) : R :=
  1 - x * (1 - x / 2 * (1 - x / 3 * (1 - x / 4 * (1 - x / 5 *
    (1 - x / 6 * (1 - x / 7 * (1 - x / 8 * (1 - x / 9)))))))).

(** ** The integration's constants ([const.py]) *)

Module Const.

Definition DOMAIN : string := "frost_risks".

Definition CONF_TEMPERATURE_SENSOR : string := "temperature_sensor".
Definition CONF_HUMIDITY_SENSOR : string := "humidity_sensor".
Definition CONF_NAME : string := "name".

Definition SENSOR_TYPE_ABSOLUTE_HUMIDITY : string := "absolute_humidity".
Definition SENSOR_TYPE_DEW_POINT : string := "dew_point".
Definition SENSOR_TYPE_FROST_POINT : string := "frost_point".
Definition SENSOR_TYPE_FREEZING_POINT : string := "freezing_point".
Definition SENSOR_TYPE_WET_BULB : string := "wet_bulb_temperature".
Definition SENSOR_TYPE_VAPOR_PRESSURE : string := "vapor_pressure".
Definition SENSOR_TYPE_HUMIDITY_RATIO : string := "humidity_ratio".
Definition SENSOR_TYPE_FROST_RISK : string := "frost_risk_level".

(** One value of the [SENSOR_TYPES] dictionary. *)
Record sensor_info : Type := {
  name_en : string;
  name_nl : string;
  unit : option string;
  device_class : option string;
  state_class : option string;
  icon : string
}.

(** A dictionary with string keys, in insertion order. *)
Definition dict (V : Type) : Type := list (string * V).

Fixpoint dict_get {V : Type} (d : dict V) (k : string) : option V :=
  match d with
  | [] => None
  | (k', v) :: d' => if String.eqb k k' then Some v else dict_get d' k
  end.

Definition dict_keys {V : Type} (d : dict V) : list string := map fst d.

Definition SENSOR_TYPES : dict sensor_info := [
  (SENSOR_TYPE_ABSOLUTE_HUMIDITY,
   {| name_en := "Absolute Humidity"; name_nl := "Absolute Vochtigheid";
      unit := Some "g/m³"; device_class := None;
      state_class := Some "measurement"; icon := "mdi:water" |});
  (SENSOR_TYPE_DEW_POINT,
   {| name_en := "Dew Point"; name_nl := "Dauwpunt";
      unit := Some "°C"; device_class := Some "temperature";
      state_class := Some "measurement"; icon := "mdi:thermometer-water" |});
  (SENSOR_TYPE_FROST_POINT,
   {| name_en := "Frost Point"; name_nl := "Rijppunt";
      unit := Some "°C"; device_class := Some "temperature";
      state_class := Some "measurement";
      icon := "mdi:snowflake-thermometer" |});
  (SENSOR_TYPE_FREEZING_POINT,
   {| name_en := "Freezing Point"; name_nl := "Vriespunt";
      unit := Some "°C"; device_class := Some "temperature";
      state_class := Some "measurement"; icon := "mdi:snowflake-alert" |});
  (SENSOR_TYPE_WET_BULB,
   {| name_en := "Wet-Bulb Temperature"; name_nl := "Natte-Bol Temperatuur";
      unit := Some "°C"; device_class := Some "temperature";
      state_class := Some "measurement"; icon := "mdi:thermometer" |});
  (SENSOR_TYPE_VAPOR_PRESSURE,
   {| name_en := "Vapor Pressure"; name_nl := "Dampdruk";
      unit := Some "hPa"; device_class := Some "atmospheric_pressure";
      state_class := Some "measurement"; icon := "mdi:gauge" |});
  (SENSOR_TYPE_HUMIDITY_RATIO,
   {| name_en := "Humidity Ratio"; name_nl := "Vochtverhouding";
      unit := Some "kg/kg"; device_class := None;
      state_class := Some "measurement"; icon := "mdi:water-percent" |});
  (SENSOR_TYPE_FROST_RISK,
   {| name_en := "Frost Risk Level"; name_nl := "Vorst Risico Niveau";
      unit := None; device_class := None;
      state_class := None; icon := "mdi:snowflake-alert" |})
]%string.

(** One value of the [FROST_RISK_LEVELS] dictionary. *)
Record risk_description : Type := { en : string; nl : string }.

Definition FROST_RISK_LEVELS : list (Z * risk_description) := [
  (0%Z, {| en := "No Risk"; nl := "Geen Risico" |});
  (1%Z, {| en := "Very Low"; nl := "Zeer Laag" |});
  (2%Z, {| en := "Low"; nl := "Laag" |});
  (3%Z, {| en := "Moderate"; nl := "Gemiddeld" |});
  (4%Z, {| en := "High"; nl := "Hoog" |});
  (5%Z, {| en := "Very High"; nl := "Zeer Hoog" |})
]%string.

Fixpoint level_get (d : list (Z * risk_description)) (k : Z)
  : option risk_description :=
  match d with
  | [] => None
  | (k', v) :: d' => if Z.eqb k k' then Some v else level_get d' k
  end.

End Const.

Import Const.

(** ** The sensor entity ([sensor.py], class [FrostRisksSensor]) *)

(** Constants of the [homeassistant] package that the entity imports. *)
Module HomeAssistant.

Definition ATTR_TEMPERATURE : string := "temperature".
Definition STATE_UNAVAILABLE : string := "unavailable".
Definition STATE_UNKNOWN : string := "unknown".

(** [DeviceInfo(identifiers={(domain, id)}, name, manufacturer, model)]. *)
Record DeviceInfo : Type := {
  identifiers : list (string * string);
  device_name : string;
  manufacturer : string;
  model : string
}.

End HomeAssistant.

Import HomeAssistant.

Module Entity.

Definition ATTR_HUMIDITY : string := "humidity".

(** The attributes of a [FrostRisksSensor] object (the [hass] handle is
    not part of the model; the states it gives access to are an argument of
    [async_update]). *)
Record sensor : Type := {
  _entry_id : string;
  _base_name : string;
  _temperature_entity : string;
  _humidity_entity : string;
  _sensor_type : string;
  _temperature : option R;
  _humidity : option R;
  _attr_name : string;
  _attr_unique_id : string;
  _attr_native_unit_of_measurement : option string;
  _attr_device_class : option string;
  _attr_state_class : option string;
  _attr_icon : string;
  _attr_device_info : DeviceInfo;
  _attr_native_value : option R
}.

(** [FrostRisksSensor.__init__]; [None] stands for the [KeyError] of
    [SENSOR_TYPES[sensor_type]]. *)
Definition __init__
    (entry_id name temperature_entity humidity_entity sensor_type : string)
  : option sensor :=
  match dict_get SENSOR_TYPES sensor_type with
  | None => None
  | Some sensor_info =>
      Some {|
        _entry_id := entry_id;
        _base_name := name;
        _temperature_entity := temperature_entity;
        _humidity_entity := humidity_entity;
        _sensor_type := sensor_type;
        _temperature := None;
        _humidity := None;
        _attr_name := (name ++ " " ++ name_en sensor_info)%string;
        _attr_unique_id := (entry_id ++ "_" ++ sensor_type)%string;
        _attr_native_unit_of_measurement := unit sensor_info;
        _attr_device_class := device_class sensor_info;
        _attr_state_class := state_class sensor_info;
        _attr_icon := icon sensor_info;
        _attr_device_info :=
          {| identifiers := [(DOMAIN, entry_id)];
             device_name := name;
             manufacturer := "Frost Risks";
             model := "Frost Risk Monitor" |};
        _attr_native_value := None
      |}
  end.

(** The list that [async_setup_entry] hands to [async_add_entities]: one
    sensor per key of [SENSOR_TYPES], in the dictionary's order. *)
Fixpoint create_sensors
    (entry_id name temperature_entity humidity_entity : string)
    (sensor_types : list string) : option (list sensor) :=
  match sensor_types with
  | [] => Some []
  | sensor_type :: rest =>
      match __init__ entry_id name temperature_entity humidity_entity
              sensor_type with
      | None => None
      | Some s =>
          match create_sensors entry_id name temperature_entity
                  humidity_entity rest with
          | None => None
          | Some sensors => Some (s :: sensors)
          end
      end
  end.

(** [async_setup_entry], with [config = hass.data[DOMAIN][entry.entry_id]];
    [None] stands for a [KeyError]. *)
Definition async_setup_entry (entry_id : string) (config : dict string)
  : option (list sensor) :=
  match dict_get config CONF_NAME with
  | None => None
  | Some name =>
      match dict_get config CONF_TEMPERATURE_SENSOR with
      | None => None
      | Some temperature_entity =>
          match dict_get config CONF_HUMIDITY_SENSOR with
          | None => None
          | Some humidity_entity =>
              create_sensors entry_id name temperature_entity
                humidity_entity (dict_keys SENSOR_TYPES)
          end
      end
  end.

Definition with_temperature (self : sensor) (v : option R) : sensor :=
  {| _entry_id := _entry_id self; _base_name := _base_name self;
     _temperature_entity := _temperature_entity self;
     _humidity_entity := _humidity_entity self;
     _sensor_type := _sensor_type self;
     _temperature := v; _humidity := _humidity self;
     _attr_name := _attr_name self; _attr_unique_id := _attr_unique_id self;
     _attr_native_unit_of_measurement :=
       _attr_native_unit_of_measurement self;
     _attr_device_class := _attr_device_class self;
     _attr_state_class := _attr_state_class self;
     _attr_icon := _attr_icon self;
     _attr_device_info := _attr_device_info self;
     _attr_native_value := _attr_native_value self |}.

Definition with_humidity (self : sensor) (v : option R) : sensor :=
  {| _entry_id := _entry_id self; _base_name := _base_name self;
     _temperature_entity := _temperature_entity self;
     _humidity_entity := _humidity_entity self;
     _sensor_type := _sensor_type self;
     _temperature := _temperature self; _humidity := v;
     _attr_name := _attr_name self; _attr_unique_id := _attr_unique_id self;
     _attr_native_unit_of_measurement :=
       _attr_native_unit_of_measurement self;
     _attr_device_class := _attr_device_class self;
     _attr_state_class := _attr_state_class self;
     _attr_icon := _attr_icon self;
     _attr_device_info := _attr_device_info self;
     _attr_native_value := _attr_native_value self |}.

Definition with_native_value (self : sensor) (v : option R) : sensor :=
  {| _entry_id := _entry_id self; _base_name := _base_name self;
     _temperature_entity := _temperature_entity self;
     _humidity_entity := _humidity_entity self;
     _sensor_type := _sensor_type self;
     _temperature := _temperature self; _humidity := _humidity self;
     _attr_name := _attr_name self; _attr_unique_id := _attr_unique_id self;
     _attr_native_unit_of_measurement :=
       _attr_native_unit_of_measurement self;
     _attr_device_class := _attr_device_class self;
     _attr_state_class := _attr_state_class self;
     _attr_icon := _attr_icon self;
     _attr_device_info := _attr_device_info self;
     _attr_native_value := v |}.

(** [float(level)] for a Python [int]. *)
Definition float_of_int (n : Z) : R := IZR n.

(** [int(x)] for a Python [float]: truncation towards zero. *)
Definition int_of_float (x : R) : Z :=
  if Rle_dec 0 x then Int_part x else (- Int_part (- x))%Z.

Definition _calculate_value (self : sensor) : result (option R) :=
  match _temperature self, _humidity self with
  | Some temperature, Some humidity =>
      if String.eqb (_sensor_type self) SENSOR_TYPE_ABSOLUTE_HUMIDITY then
        v <- _compute_absolute_humidity temperature humidity ;; Ok (Some v)
      else if String.eqb (_sensor_type self) SENSOR_TYPE_DEW_POINT then
        v <- _compute_dew_point temperature humidity ;; Ok (Some v)
      else if String.eqb (_sensor_type self) SENSOR_TYPE_FROST_POINT then
        v <- _compute_frost_point temperature humidity ;; Ok (Some v)
      else if String.eqb (_sensor_type self) SENSOR_TYPE_FREEZING_POINT then
        v <- _compute_freezing_point temperature humidity ;; Ok (Some v)
      else if String.eqb (_sensor_type self) SENSOR_TYPE_WET_BULB then
        v <- _compute_wet_bulb_temperature temperature humidity ;; Ok (Some v)
      else if String.eqb (_sensor_type self) SENSOR_TYPE_VAPOR_PRESSURE then
        v <- _compute_vapor_pressure temperature humidity ;; Ok (Some v)
      else if String.eqb (_sensor_type self) SENSOR_TYPE_HUMIDITY_RATIO then
        v <- _compute_humidity_ratio temperature humidity ;; Ok (Some v)
      else if String.eqb (_sensor_type self) SENSOR_TYPE_FROST_RISK then
        n <- _compute_frost_risk_level temperature humidity ;;
        Ok (Some (float_of_int n))
      else Ok None
  | _, _ => Ok None
  end.

(** A value of the dictionary returned by [extra_state_attributes]. *)
Inductive attribute : Type :=
| AttrFloat (v : option R)
| AttrStr (s : string).

Definition extra_state_attributes (self : sensor) : dict attribute :=
  let attrs := [
    (ATTR_TEMPERATURE, AttrFloat (_temperature self));
    (ATTR_HUMIDITY, AttrFloat (_humidity self))
  ] in
  if String.eqb (_sensor_type self) SENSOR_TYPE_FROST_RISK then
    match _attr_native_value self with
    | Some value =>
        let level := int_of_float value in
        match level_get FROST_RISK_LEVELS level with
        | Some d =>
            attrs ++ [("description_en"%string, AttrStr (en d));
                      ("description_nl"%string, AttrStr (nl d))]
        | None => attrs
        end
    | None => attrs
    end
  else attrs.

Section Update.

(** [float(s)] on a state string; [None] stands for the [ValueError] of a
    string that is not a number. *)
Variable float_of_str : string -> option R.

(** [hass.states.get(entity_id)], reduced to the [state] string of the
    state object; [None] when the entity has no state. *)
Variable states_get : string -> option string.

(** The reading taken from one source entity by [async_update]. *)
Definition read_source (entity_id : string) : option R :=
  match states_get entity_id with
  | Some state =>
      if String.eqb state STATE_UNKNOWN then None
      else if String.eqb state STATE_UNAVAILABLE then None
      else float_of_str state
  | None => None
  end.

(** [async_update]: the sensor after the call and the exception that
    escaped it, if any. *)
Definition async_update (self : sensor) : sensor * option exn :=
  let self := with_temperature self (read_source (_temperature_entity self)) in
  let self := with_humidity self (read_source (_humidity_entity self)) in
  match _temperature self, _humidity self with
  | Some _, Some _ =>
      match _calculate_value self with
      | Ok v => (with_native_value self v, None)
      | Raise e => (self, Some e)
      end
  | _, _ => (with_native_value self None, None)
  end.

End Update.

End Entity.

Import Entity.

(** ** Elementary facts on the Python primitives *)

Section Primitives.

Lemma py_div_ok (x y : R) : y <> 0 -> py_div x y = Ok (x / y).
Proof.
  intros Hy. unfold py_div. destruct (Req_dec_T y 0); [contradiction | reflexivity].
Qed.

Lemma py_div_zero (x : R) : py_div x 0 = Raise ZeroDivisionError.
Proof.
  unfold py_div. destruct (Req_dec_T 0 0) as [_ | H]; [reflexivity | now elim H].
Qed.

Lemma math_log_ok (x : R) : 0 < x -> math_log x = Ok (ln x).
Proof.
  intros Hx. unfold math_log. destruct (Rlt_dec 0 x); [reflexivity | contradiction].
Qed.

Lemma math_log_domain (x : R) : x <= 0 -> math_log x = Raise ValueError.
Proof.
  intros Hx. unfold math_log. destruct (Rlt_dec 0 x); [lra | reflexivity].
Qed.

Lemma math_sqrt_ok (x : R) : 0 <= x -> math_sqrt x = Ok (sqrt x).
Proof.
  intros Hx. unfold math_sqrt. destruct (Rle_dec 0 x); [reflexivity | contradiction].
Qed.

Lemma math_pow_ok (x y : R) : 0 < x -> math_pow x y = Ok (Rpower x y).
Proof.
  intros Hx. unfold math_pow. destruct (Rlt_dec 0 x); [reflexivity | contradiction].
Qed.

Lemma py_leb_true (x y : R) : (x <=? y) = true <-> x <= y.
Proof. unfold py_leb. destruct (Rle_dec x y); split; intros; (easy || lra). Qed.

Lemma py_leb_false (x y : R) : (x <=? y) = false <-> y < x.
Proof. unfold py_leb. destruct (Rle_dec x y); split; intros; (easy || lra). Qed.

Lemma py_ltb_true (x y : R) : (x <? y) = true <-> x < y.
Proof. unfold py_ltb. destruct (Rlt_dec x y); split; intros; (easy || lra). Qed.

Lemma py_ltb_false (x y : R) : (x <? y) = false <-> y <= x.
Proof. unfold py_ltb. destruct (Rlt_dec x y); split; intros; (easy || lra). Qed.

End Primitives.

(** ** Rounding *)

Section Rounding.

Lemma Int_part_bounds (x : R) :
  IZR (Int_part x) <= x < IZR (Int_part x) + 1.
Proof.
  unfold Int_part. rewrite minus_IZR.
  destruct (archimed x) as [Hu Hl]. lra.
Qed.

Lemma Int_part_unique (x : R) (n : Z) :
  IZR n <= x < IZR n + 1 -> Int_part x = n.
Proof.
  intros [Hl Hu]. destruct (Int_part_bounds x) as [Fl Fu].
  assert (H1 : (n < Int_part x + 1)%Z).
  { apply lt_IZR. rewrite plus_IZR. lra. }
  assert (H2 : (Int_part x < n + 1)%Z).
  { apply lt_IZR. rewrite plus_IZR. lra. }
  lia.
Qed.

Lemma round_half_even_error (x : R) :
  x - 1 / 2 <= IZR (round_half_even x) <= x + 1 / 2.
Proof.
  unfold round_half_even. destruct (Int_part_bounds x) as [Fl Fu].
  destruct (Rlt_dec _ _) as [H1 | H1].
  - lra.
  - destruct (Rlt_dec _ _) as [H2 | H2].
    + rewrite plus_IZR. lra.
    + destruct (Z.even _); [| rewrite plus_IZR]; lra.
Qed.

Lemma round_half_even_near (x : R) (n : Z) :
  IZR n - 1 / 2 < x < IZR n + 1 / 2 -> round_half_even x = n.
Proof.
  intros [Hl Hu]. destruct (round_half_even_error x) as [El Eu].
  assert (H1 : (n < round_half_even x + 1)%Z).
  { apply lt_IZR. rewrite plus_IZR. lra. }
  assert (H2 : (round_half_even x < n + 1)%Z).
  { apply lt_IZR. rewrite plus_IZR. lra. }
  lia.
Qed.

Lemma round_half_even_IZR (n : Z) : round_half_even (IZR n) = n.
Proof. apply round_half_even_near. lra. Qed.

Lemma py_round_2_near (x : R) (n : Z) :
  IZR n - 1 / 2 < 100 * x < IZR n + 1 / 2 -> py_round x 2 = IZR n / 100.
Proof.
  intros H. unfold py_round.
  replace (10 ^ 2) with 100 by (simpl; lra).
  rewrite (round_half_even_near (x * 100) n) by lra. reflexivity.
Qed.

Lemma py_round_2_hundredth (n : Z) : py_round (IZR n / 100) 2 = IZR n / 100.
Proof. apply py_round_2_near. lra. Qed.

Lemma py_round_2_idempotent (x : R) :
  py_round (py_round x 2) 2 = py_round x 2.
Proof.
  unfold py_round at 2 3.
  replace (10 ^ 2) with 100 by (simpl; lra).
  apply py_round_2_hundredth.
Qed.

Lemma py_round_2_error (x : R) :
  x - 0.005 <= py_round x 2 <= x + 0.005.
Proof.
  unfold py_round. replace (10 ^ 2) with 100 by (simpl; lra).
  destruct (round_half_even_error (x * 100)) as [El Eu]. lra.
Qed.

End Rounding.

(** ** Bounds on the exponential and the logarithm *)

Section ExpBounds.

Lemma exp_term_fact (x : R) (k : nat) : exp_term x k = x ^ k / INR (fact k).
Proof.
  induction k as [| k IH].
  - simpl. field.
  - cbn [exp_term]. rewrite IH, fact_simpl, mult_INR. simpl pow.
    field. split; [apply INR_fact_neq_0 | apply not_0_INR; discriminate].
Qed.

Lemma exp_term_nonneg (x : R) (k : nat) : 0 <= x -> 0 <= exp_term x k.
Proof.
  intros Hx. induction k as [| k IH]; cbn [exp_term]; [lra |].
  apply Rmult_le_pos; [exact IH |].
  apply Rmult_le_pos; [exact Hx |].
  apply Rlt_le, Rinv_0_lt_compat, lt_0_INR. lia.
Qed.

Lemma exp_term_decreasing (x : R) :
  0 <= x <= 1 -> Un_decreasing (exp_term x).
Proof.
  intros [H0 H1] k. cbn [exp_term].
  assert (Hk : 1 <= INR (S k)) by (rewrite S_INR; pose proof (pos_INR k); lra).
  assert (Hq : x / INR (S k) <= 1).
  { apply Rmult_le_reg_r with (INR (S k)); [lra |].
    unfold Rdiv. rewrite Rmult_assoc, Rinv_l by lra. lra. }
  pose proof (exp_term_nonneg x k H0) as Ht.
  nra.
Qed.

Lemma exp_term_cv_0 (x : R) : Un_cv (exp_term x) 0.
Proof.
  intros eps Heps. destruct (cv_speed_pow_fact x eps Heps) as [N HN].
  exists N. intros n Hn. rewrite exp_term_fact. now apply HN.
Qed.

Lemma exp_neg_series_cv (x : R) :
  Un_cv (fun N => sum_f_R0 (tg_alt (exp_term x)) N) (exp (- x)).
Proof.
  unfold exp. destruct (exist_exp (- x)) as [l Hl]. cbn [proj1_sig].
  intros eps Heps. destruct (Hl eps Heps) as [N HN].
  exists N. intros n Hn.
  replace (sum_f_R0 (tg_alt (exp_term x)) n)
    with (sum_f_R0 (fun i => / INR (fact i) * (- x) ^ i) n);
    [now apply HN |].
  apply sum_eq. intros i _. unfold tg_alt. rewrite exp_term_fact.
  replace (- x) with (-1 * x) by ring. rewrite Rpow_mult_distr.
  unfold Rdiv. ring.
Qed.

Lemma exp_neg_series_bounds (x : R) (N : nat) :
  0 <= x <= 1 ->
  sum_f_R0 (tg_alt (exp_term x)) (S (2 * N)) <= exp (- x)
    <= sum_f_R0 (tg_alt (exp_term x)) (2 * N).
Proof.
  intros Hx. apply alternated_series_ineq.
  - now apply exp_term_decreasing.
  - apply exp_term_cv_0.
  - apply exp_neg_series_cv.
Qed.

Lemma exp_neg_bounds (x : R) :
  0 <= x <= 1 -> exp_neg_lower x <= exp (- x) <= exp_neg_upper x.
Proof.
  intros Hx. pose proof (exp_neg_series_bounds x 4 Hx) as H.
  replace (sum_f_R0 (tg_alt (exp_term x)) (S (2 * 4))) with (exp_neg_lower x)
    in H.
  2:{ unfold exp_neg_lower, tg_alt. simpl. field. }
  replace (sum_f_R0 (tg_alt (exp_term x)) (2 * 4)) with (exp_neg_upper x)
    in H.
  2:{ unfold exp_neg_upper, tg_alt. simpl. field. }
  exact H.
Qed.

Lemma exp_neg_le (x u : R) :
  0 <= x <= 1 -> exp_neg_upper x <= u -> exp (- x) <= u.
Proof. intros Hx Hu. destruct (exp_neg_bounds x Hx). lra. Qed.

Lemma exp_neg_ge (x l : R) :
  0 <= x <= 1 -> l <= exp_neg_lower x -> l <= exp (- x).
Proof. intros Hx Hl. destruct (exp_neg_bounds x Hx). lra. Qed.

Lemma exp_neg_mul (y : R) (n : nat) : exp (- (INR n * y)) = exp (- y) ^ n.
Proof.
  induction n as [| n IH].
  - simpl. rewrite Rmult_0_l, Ropp_0. apply exp_0.
  - rewrite S_INR. replace (- ((INR n + 1) * y)) with (- y + - (INR n * y)) by ring.
    rewrite exp_plus, IH. reflexivity.
Qed.

(** Bounds on [exp (- x)] for [x = n * y] with [0 <= y <= 1]. *)
Lemma exp_neg_mul_le (x y u : R) (n : nat) :
  x = INR n * y -> 0 <= y <= 1 -> exp_neg_upper y <= u -> exp (- x) <= u ^ n.
Proof.
  intros -> Hy Hu. rewrite exp_neg_mul. apply pow_incr. split.
  - left. apply exp_pos.
  - now apply exp_neg_le.
Qed.

Lemma exp_neg_mul_ge (x y l : R) (n : nat) :
  x = INR n * y -> 0 <= y <= 1 -> 0 <= l <= exp_neg_lower y ->
  l ^ n <= exp (- x).
Proof.
  intros -> Hy [Hl0 Hl]. rewrite exp_neg_mul. apply pow_incr. split.
  - exact Hl0.
  - now apply exp_neg_ge.
Qed.

Lemma exp_inv_neg (x : R) : exp x = / exp (- x).
Proof. rewrite exp_Ropp, Rinv_inv. reflexivity. Qed.

Lemma ln_le_of_exp (x c : R) : 0 < x -> x <= exp c -> ln x <= c.
Proof.
  intros Hx H. rewrite <- (ln_exp c). destruct H as [H | H].
  - left. now apply ln_increasing.
  - right. now rewrite H.
Qed.

Lemma ln_ge_of_exp (x c : R) : exp c <= x -> c <= ln x.
Proof.
  intros H. rewrite <- (ln_exp c). pose proof (exp_pos c) as Hc.
  destruct H as [H | H].
  - left. now apply ln_increasing.
  - right. now rewrite H.
Qed.

(** [ln z <= z - 1], from [1 + y <= exp y]. *)
Lemma ln_le_minus_1 (z : R) : 0 < z -> ln z <= z - 1.
Proof.
  intros Hz. apply ln_le_of_exp; [exact Hz |].
  pose proof (exp_ineq1_le (z - 1)). lra.
Qed.

End ExpBounds.

(** ** The formula library: when it returns and what *)

Section Formulas.

Lemma bind_Ok_inv {A B : Type} (m : result A) (k : A -> result B) (b : B) :
  bind m k = Ok b -> exists a, m = Ok a /\ k a = Ok b.
Proof. destruct m as [a | e]; simpl; intros H; [eauto | discriminate]. Qed.

Lemma py_div_Ok_inv (x y v : R) : py_div x y = Ok v -> y <> 0 /\ v = x / y.
Proof.
  unfold py_div. destruct (Req_dec_T y 0); [discriminate |].
  intros [= <-]. now split.
Qed.

Lemma math_log_Ok_inv (x v : R) : math_log x = Ok v -> 0 < x /\ v = ln x.
Proof.
  unfold math_log. destruct (Rlt_dec 0 x); [| discriminate].
  intros [= <-]. now split.
Qed.

Lemma two_decimals_round (x : R) : two_decimals (py_round x 2).
Proof.
  exists (round_half_even (x * 10 ^ 2)). unfold py_round.
  replace (10 ^ 2) with 100 by (simpl; lra). reflexivity.
Qed.

Lemma two_decimals_fixed (x : R) : two_decimals x -> py_round x 2 = x.
Proof. intros [n ->]. apply py_round_2_hundredth. Qed.

Lemma dew_point_is_magnus_tetens (T RH : R) :
  _compute_dew_point T RH = magnus_tetens 17.27 237.7 T RH.
Proof.
  unfold _compute_dew_point, magnus_tetens.
  replace (RH / 100.0) with (RH / 100) by lra. reflexivity.
Qed.

Lemma magnus_tetens_two_decimals (a b T RH d : R) :
  magnus_tetens a b T RH = Ok d -> two_decimals d.
Proof.
  unfold magnus_tetens. intros H.
  apply bind_Ok_inv in H as (q & _ & H).
  apply bind_Ok_inv in H as (l & _ & H).
  apply bind_Ok_inv in H as (d' & _ & H).
  injection H as <-. apply two_decimals_round.
Qed.

Lemma dew_point_two_decimals (T RH dp : R) :
  _compute_dew_point T RH = Ok dp -> two_decimals dp.
Proof.
  rewrite dew_point_is_magnus_tetens. apply magnus_tetens_two_decimals.
Qed.

(** On the physical range the dew point is defined. *)
Lemma dew_point_returns (T RH : R) :
  -237.7 < T -> 0 < RH <= 100 -> returns (_compute_dew_point T RH).
Proof.
  intros HT [H0 H100]. unfold _compute_dew_point. cbv zeta.
  rewrite py_div_ok by lra. cbn [bind].
  rewrite math_log_ok by lra. cbn [bind].
  assert (Hl : ln (RH / 100.0) <= 0).
  { pose proof (ln_le_minus_1 (RH / 100.0)). lra. }
  assert (Hq : 17.27 * T / (237.7 + T) < 17.27).
  { replace (17.27 * T / (237.7 + T))
      with (17.27 - 17.27 * 237.7 / (237.7 + T)) by (field; lra).
    assert (0 < 17.27 * 237.7 / (237.7 + T)); [| lra].
    apply Rdiv_lt_0_compat; lra. }
  rewrite py_div_ok by lra. cbn [bind]. eexists. reflexivity.
Qed.

Lemma exp_1_pow_6 : exp 6 <= 729.
Proof.
  replace 6 with (- (INR 6 * (- (1)))) by (simpl; lra).
  rewrite exp_neg_mul, Ropp_involutive.
  replace 729 with (3 ^ 6) by lra.
  apply pow_incr. split; [left; apply exp_pos | apply exp_le_3].
Qed.

(** The denominator of the freezing-point formula never vanishes. *)
Lemma freezing_denominator_pos (TK : R) :
  0 < TK -> 0 < 2954.61 / TK + 2.193665 * ln TK - 13.3448.
Proof.
  intros HT.
  assert (H729 : 6 <= ln 729) by (apply ln_ge_of_exp, exp_1_pow_6).
  assert (Hu : 0 < / TK) by now apply Rinv_0_lt_compat.
  assert (Hd : ln (729 / TK) <= 729 / TK - 1).
  { apply ln_le_minus_1. apply Rdiv_lt_0_compat; lra. }
  unfold Rdiv in Hd. rewrite ln_mult, ln_Rinv in Hd by lra.
  unfold Rdiv. lra.
Qed.

Lemma freezing_point_from_dew_point (T RH dp : R) :
  _compute_dew_point T RH = Ok dp -> -273.15 < T ->
  _compute_freezing_point T RH = Ok (py_round (freezing_point_kelvin T dp) 2).
Proof.
  intros Hdp HT. unfold _compute_freezing_point. rewrite Hdp. cbn [bind].
  cbv zeta. rewrite py_div_ok by lra. cbn [bind].
  rewrite math_log_ok by lra. cbn [bind].
  pose proof (freezing_denominator_pos (T + 273.15)) as Hden.
  rewrite py_div_ok by lra. cbn [bind]. reflexivity.
Qed.

Lemma wet_bulb_clamp (humidity : R) :
  py_max 0.0 (py_min 100.0 humidity) = Rmax 0 (Rmin 100 humidity).
Proof.
  unfold py_max, py_min, Rmax, Rmin.
  repeat (destruct (Rlt_dec _ _) || destruct (Rle_dec _ _)); lra.
Qed.

Lemma wet_bulb_low (T RH : R) :
  Rmax 0 (Rmin 100 RH) < 5 ->
  _compute_wet_bulb_temperature T RH = Ok (py_round (T - 0.5) 2).
Proof.
  intros H. unfold _compute_wet_bulb_temperature. cbv zeta.
  rewrite wet_bulb_clamp. destruct (Rlt_dec _ _); [reflexivity | lra].
Qed.

Lemma wet_bulb_stull (T RH : R) :
  5 <= Rmax 0 (Rmin 100 RH) ->
  _compute_wet_bulb_temperature T RH
  = Ok (py_round (stull T (Rmax 0 (Rmin 100 RH))) 2).
Proof.
  intros H. unfold _compute_wet_bulb_temperature. cbv zeta.
  rewrite wet_bulb_clamp. destruct (Rlt_dec _ _); [lra |].
  rewrite math_sqrt_ok by lra. cbn [bind].
  rewrite math_pow_ok by lra. cbn [bind]. reflexivity.
Qed.

Lemma wet_bulb_returns (T RH : R) :
  returns (_compute_wet_bulb_temperature T RH).
Proof.
  destruct (Rlt_dec (Rmax 0 (Rmin 100 RH)) 5) as [H | H].
  - rewrite wet_bulb_low by exact H. eexists; reflexivity.
  - rewrite wet_bulb_stull by lra. eexists; reflexivity.
Qed.

Lemma absolute_humidity_returns (T RH : R) :
  -243.5 < T -> returns (_compute_absolute_humidity T RH).
Proof.
  intros HT. unfold _compute_absolute_humidity. cbv zeta.
  rewrite py_div_ok by lra. cbn [bind].
  rewrite py_div_ok by lra. cbn [bind]. eexists; reflexivity.
Qed.

Lemma frost_risk_level_returns (T RH : R) :
  -237.7 < T -> 0 < RH <= 100 -> returns (_compute_frost_risk_level T RH).
Proof.
  intros HT HRH. unfold _compute_frost_risk_level.
  destruct (dew_point_returns T RH HT HRH) as [dp Hdp].
  rewrite Hdp. cbn [bind].
  destruct (wet_bulb_returns T RH) as [wb ->]. cbn [bind].
  rewrite (freezing_point_from_dew_point T RH dp Hdp) by lra. cbn [bind].
  destruct (absolute_humidity_returns T RH) as [ah ->]; [lra |].
  cbn [bind]. eexists; reflexivity.
Qed.

Lemma frost_risk_level_Ok_inv (T RH : R) (n : Z) :
  _compute_frost_risk_level T RH = Ok n ->
  exists dp wb fp ah, n = risk_level_of T dp wb fp ah.
Proof.
  unfold _compute_frost_risk_level. intros H.
  apply bind_Ok_inv in H as (dp & _ & H).
  apply bind_Ok_inv in H as (wb & _ & H).
  apply bind_Ok_inv in H as (fp & _ & H).
  apply bind_Ok_inv in H as (ah & _ & H).
  injection H as <-. now exists dp, wb, fp, ah.
Qed.

End Formulas.

(** ** The classifier's ladders *)

Section Ladders.

Ltac unfold_ladders :=
  unfold risk_level_of, temperature_risk, dew_point_risk, wet_bulb_risk,
    freezing_point_risk, abs_humidity_risk, py_geb, py_leb, py_ltb.

Ltac split_comparisons :=
  repeat match goal with
    | |- context [Rle_dec ?x ?y] =>
        destruct (Rle_dec x y); try (exfalso; lra); cbn [andb]
    | |- context [Rlt_dec ?x ?y] =>
        destruct (Rlt_dec x y); try (exfalso; lra); cbn [andb]
    end.

Ltac ladder_cases := unfold_ladders; split_comparisons; lia.

(** Each ladder only raises the running level, and by a bounded amount. *)

Lemma temperature_risk_range (T : R) (rl : Z) :
  (rl <= temperature_risk T rl <= Z.max rl 5)%Z.
Proof. ladder_cases. Qed.

Lemma temperature_risk_cold (T : R) (rl : Z) :
  T <= -5 -> temperature_risk T rl = Z.max rl 5.
Proof. intros H. ladder_cases. Qed.

Lemma temperature_risk_mild (T : R) (rl : Z) :
  -5 < T -> (temperature_risk T rl <= Z.max rl 4)%Z.
Proof. intros H. ladder_cases. Qed.

Lemma dew_point_risk_range (dp : R) (rl : Z) :
  (rl <= dew_point_risk dp rl <= Z.max rl 4)%Z.
Proof. ladder_cases. Qed.

Lemma wet_bulb_risk_range (wb T : R) (rl : Z) :
  (rl <= wet_bulb_risk wb T rl <= Z.max rl 4)%Z.
Proof. ladder_cases. Qed.

Lemma freezing_point_risk_range (fp : R) (rl : Z) :
  (rl <= freezing_point_risk fp rl <= Z.max rl 4)%Z.
Proof. ladder_cases. Qed.

Lemma abs_humidity_risk_range (ah T fp : R) (rl : Z) :
  (rl <= abs_humidity_risk ah T fp rl <= Z.max rl 2)%Z.
Proof. ladder_cases. Qed.

(** Each ladder is monotone in the running level and antitone in the
    quantities it reads (the absolute humidity being fixed). *)

Lemma temperature_risk_mono (T T' : R) (rl rl' : Z) :
  T' <= T -> (rl <= rl')%Z ->
  (temperature_risk T rl <= temperature_risk T' rl')%Z.
Proof. intros HT Hrl. ladder_cases. Qed.

Lemma dew_point_risk_mono (dp dp' : R) (rl rl' : Z) :
  dp' <= dp -> (rl <= rl')%Z ->
  (dew_point_risk dp rl <= dew_point_risk dp' rl')%Z.
Proof. intros Hdp Hrl. ladder_cases. Qed.

Lemma wet_bulb_risk_mono (wb wb' T T' : R) (rl rl' : Z) :
  wb' <= wb -> T' <= T -> (rl <= rl')%Z ->
  (wet_bulb_risk wb T rl <= wet_bulb_risk wb' T' rl')%Z.
Proof. intros Hwb HT Hrl. ladder_cases. Qed.

Lemma freezing_point_risk_mono (fp fp' : R) (rl rl' : Z) :
  fp' <= fp -> (rl <= rl')%Z ->
  (freezing_point_risk fp rl <= freezing_point_risk fp' rl')%Z.
Proof. intros Hfp Hrl. ladder_cases. Qed.

Lemma abs_humidity_risk_mono (ah T T' fp fp' : R) (rl rl' : Z) :
  T' <= T -> fp' <= fp -> (rl <= rl')%Z ->
  (abs_humidity_risk ah T fp rl <= abs_humidity_risk ah T' fp' rl')%Z.
Proof. intros HT Hfp Hrl. ladder_cases. Qed.

Lemma risk_level_of_mono (T T' dp dp' wb wb' fp fp' ah : R) :
  T' <= T -> dp' <= dp -> wb' <= wb -> fp' <= fp ->
  (risk_level_of T dp wb fp ah <= risk_level_of T' dp' wb' fp' ah)%Z.
Proof.
  intros HT Hdp Hwb Hfp. unfold risk_level_of. cbv zeta.
  apply Z.max_le_compat_l, Z.min_le_compat_l.
  apply abs_humidity_risk_mono; [exact HT | exact Hfp |].
  apply freezing_point_risk_mono; [exact Hfp |].
  apply wet_bulb_risk_mono; [exact Hwb | exact HT |].
  apply dew_point_risk_mono; [exact Hdp |].
  apply temperature_risk_mono; [exact HT | lia].
Qed.

Lemma risk_level_of_range (T dp wb fp ah : R) :
  (0 <= risk_level_of T dp wb fp ah <= 5)%Z.
Proof. unfold risk_level_of. cbv zeta. lia. Qed.

Lemma risk_level_of_5 (T dp wb fp ah : R) :
  risk_level_of T dp wb fp ah = 5%Z <-> T <= -5.
Proof.
  unfold risk_level_of. cbv zeta.
  pose proof (temperature_risk_range T 0) as Ht.
  pose proof (dew_point_risk_range dp (temperature_risk T 0)) as Hd.
  pose proof (wet_bulb_risk_range wb T
                (dew_point_risk dp (temperature_risk T 0))) as Hw.
  pose proof (freezing_point_risk_range fp
                (wet_bulb_risk wb T
                   (dew_point_risk dp (temperature_risk T 0)))) as Hf.
  pose proof (abs_humidity_risk_range ah T fp
                (freezing_point_risk fp
                   (wet_bulb_risk wb T
                      (dew_point_risk dp (temperature_risk T 0))))) as Ha.
  destruct (Rle_dec T (-5)) as [Hc | Hc].
  - rewrite (temperature_risk_cold T 0 Hc) in *. split; [intros _; exact Hc | lia].
  - pose proof (temperature_risk_mild T 0 ltac:(lra)) as Hm.
    split; [lia | lra].
Qed.

Lemma risk_level_of_none (T dp wb fp ah : R) :
  4 < T -> 2 < dp -> 1 < fp -> risk_level_of T dp wb fp ah = 0%Z.
Proof. intros HT Hdp Hfp. ladder_cases. Qed.

End Ladders.

(** ** Numeric bounds used at the sample readings *)

Section Numerics.

Lemma py_round_2_div_near (x y : R) (n : Z) :
  0 < y ->
  (IZR n - 1 / 2) * y < 100 * x < (IZR n + 1 / 2) * y ->
  py_round (x / y) 2 = IZR n / 100.
Proof.
  intros Hy [Hl Hu]. apply py_round_2_near.
  assert (Hx : x = x / y * y) by (field; lra).
  split.
  - apply Rmult_lt_reg_r with y; [exact Hy |].
    replace (100 * (x / y) * y) with (100 * x) by (field; lra). exact Hl.
  - apply Rmult_lt_reg_r with y; [exact Hy |].
    replace (100 * (x / y) * y) with (100 * x) by (field; lra). exact Hu.
Qed.

Lemma inv_le_of_mul (e c : R) : 0 < e -> 1 <= c * e -> / e <= c.
Proof.
  intros He H. apply Rmult_le_reg_r with e; [exact He |].
  rewrite Rinv_l by lra. exact H.
Qed.

Lemma inv_ge_of_mul (e c : R) : 0 < e -> c * e <= 1 -> c <= / e.
Proof.
  intros He H. apply Rmult_le_reg_r with e; [exact He |].
  rewrite Rinv_l by lra. exact H.
Qed.

Lemma ln_half_bounds : - (0.69315) <= ln (50 / 100.0) <= - (0.69314).
Proof.
  split.
  - apply ln_ge_of_exp.
    apply exp_neg_le; [lra |]. unfold exp_neg_upper. lra.
  - apply ln_le_of_exp; [lra |].
    apply exp_neg_ge; [lra |]. unfold exp_neg_lower. lra.
Qed.

Lemma exp_magnus_20_bounds :
  3.8235 <= exp (17.67 * 20 / (243.5 + 20)) <= 3.8236.
Proof.
  set (x := 17.67 * 20 / (243.5 + 20)).
  set (y := 1767 / 2635).
  assert (Hx : x = INR 2 * y) by (unfold x, y; simpl; lra).
  assert (Hy : 0 <= y <= 1) by (unfold y; lra).
  assert (U : exp (- x) <= 0.51141 ^ 2).
  { apply (exp_neg_mul_le x y _ 2 Hx Hy). unfold exp_neg_upper, y. lra. }
  assert (L : 0.511404 ^ 2 <= exp (- x)).
  { apply (exp_neg_mul_ge x y _ 2 Hx Hy). unfold exp_neg_lower, y. lra. }
  pose proof (exp_pos (- x)) as Hp.
  rewrite exp_inv_neg. split.
  - apply inv_ge_of_mul; lra.
  - apply inv_le_of_mul; lra.
Qed.

Lemma ln_293_upper : ln (20 + 273.15) <= 5.76.
Proof.
  apply ln_le_of_exp; [lra |].
  assert (U : exp (- (5.76)) <= 0.49 ^ 8).
  { apply (exp_neg_mul_le 5.76 0.72 _ 8); [simpl; lra | lra |].
    unfold exp_neg_upper. lra. }
  pose proof (exp_pos (- (5.76))) as Hp.
  rewrite exp_inv_neg. apply inv_ge_of_mul; lra.
Qed.

Lemma ln_millionth_bounds :
  - (13.816) <= ln (0.0001 / 100.0) <= - (13.815).
Proof.
  split.
  - apply ln_ge_of_exp.
    assert (U : exp (- (13.816)) <= 0.42169 ^ 16).
    { apply (exp_neg_mul_le 13.816 0.8635 _ 16); [simpl; lra | lra |].
      unfold exp_neg_upper. lra. }
    lra.
  - apply ln_le_of_exp; [lra |].
    assert (L : 0.42170 ^ 16 <= exp (- (13.815))).
    { apply (exp_neg_mul_ge 13.815 0.8634375 _ 16); [simpl; lra | lra |].
      unfold exp_neg_lower. lra. }
    lra.
Qed.

End Numerics.

(** ** Sample readings *)

Section Readings.

Lemma dew_point_20_50 : _compute_dew_point 20 50 = Ok 9.25.
Proof.
  unfold _compute_dew_point. cbv zeta.
  rewrite py_div_ok by lra. cbn [bind].
  rewrite math_log_ok by lra. cbn [bind].
  destruct ln_half_bounds as [Hl Hu].
  rewrite py_div_ok by lra. cbn [bind].
  rewrite (py_round_2_div_near _ _ 925) by lra.
  f_equal; lra.
Qed.

Lemma dew_point_20_tiny : _compute_dew_point 20 0.0001 = Ok (- (99.69)).
Proof.
  unfold _compute_dew_point. cbv zeta.
  rewrite py_div_ok by lra. cbn [bind].
  rewrite math_log_ok by lra. cbn [bind].
  destruct ln_millionth_bounds as [Hl Hu].
  rewrite py_div_ok by lra. cbn [bind].
  rewrite (py_round_2_div_near _ _ (-9969)) by lra.
  f_equal; lra.
Qed.

Lemma vapor_pressure_20_50 : _compute_vapor_pressure 20 50 = Ok 11.68.
Proof.
  unfold _compute_vapor_pressure. cbv zeta.
  rewrite py_div_ok by lra. cbn [bind].
  replace (20 + 243.5) with (243.5 + 20) by lra.
  destruct exp_magnus_20_bounds as [Hl Hu].
  rewrite (py_round_2_near _ 1168) by lra.
  f_equal; lra.
Qed.

Lemma absolute_humidity_20_50 : _compute_absolute_humidity 20 50 = Ok 0.09.
Proof.
  unfold _compute_absolute_humidity. cbv zeta.
  rewrite py_div_ok by lra. cbn [bind].
  rewrite py_div_ok by lra. cbn [bind].
  destruct exp_magnus_20_bounds as [Hl Hu].
  rewrite (py_round_2_near _ 9) by lra.
  f_equal; lra.
Qed.

Lemma freezing_point_20_50 :
  exists fp, _compute_freezing_point 20 50 = Ok fp /\ 1 < fp.
Proof.
  rewrite (freezing_point_from_dew_point 20 50 9.25 dew_point_20_50) by lra.
  eexists. split; [reflexivity |].
  pose proof (py_round_2_error (freezing_point_kelvin 20 9.25)) as [He _].
  assert (Hk : 1.005 < freezing_point_kelvin 20 9.25); [| lra].
  unfold freezing_point_kelvin. cbv zeta.
  pose proof (freezing_denominator_pos (20 + 273.15) ltac:(lra)) as Hpos.
  pose proof ln_293_upper as Hln.
  set (den := 2954.61 / (20 + 273.15) + 2.193665 * ln (20 + 273.15) - 13.3448)
    in *.
  assert (Hden : den <= 9.37) by (unfold den; lra).
  assert (Hinv : 285 / 2671.02 <= / den) by (apply inv_ge_of_mul; lra).
  unfold Rdiv at 1. lra.
Qed.

Lemma frost_risk_level_20_50 : _compute_frost_risk_level 20 50 = Ok 0%Z.
Proof.
  unfold _compute_frost_risk_level.
  rewrite dew_point_20_50. cbn [bind].
  destruct (wet_bulb_returns 20 50) as [wb ->]. cbn [bind].
  destruct freezing_point_20_50 as (fp & -> & Hfp). cbn [bind].
  rewrite absolute_humidity_20_50. cbn [bind].
  f_equal. apply risk_level_of_none; lra.
Qed.

Lemma frost_risk_level_20_0 :
  _compute_frost_risk_level 20 0 = Raise ValueError.
Proof.
  unfold _compute_frost_risk_level, _compute_dew_point. cbv zeta.
  rewrite py_div_ok by lra. cbn [bind].
  rewrite math_log_domain by lra. reflexivity.
Qed.

End Readings.

Lemma frost_risk_level_raises_nonpositive (T RH : R) :
  RH <= 0 -> raises (_compute_frost_risk_level T RH).
Proof.
  intros HRH. unfold _compute_frost_risk_level, _compute_dew_point.
  cbv zeta. destruct (Req_dec_T T (-237.7)) as [-> | HT].
  - exists ZeroDivisionError.
    replace (237.7 + -237.7) with 0 by lra.
    rewrite py_div_zero. reflexivity.
  - exists ValueError.
    rewrite py_div_ok by lra. cbn [bind].
    rewrite math_log_domain by lra. reflexivity.
Qed.

(** ** The specification's claims *)

(** C1 (as the code behaves): at T = 20 and RH = 50 the dew point is 9.25,
    the vapor pressure is 11.68 and the frost-risk level is 0. *)
Theorem C1_reading_20_50 :
  _compute_dew_point 20 50 = Ok 9.25
  /\ _compute_vapor_pressure 20 50 = Ok 11.68
  /\ _compute_frost_risk_level 20 50 = Ok 0%Z.
Proof.
  split; [exact dew_point_20_50 |].
  split; [exact vapor_pressure_20_50 | exact frost_risk_level_20_50].
Qed.

(** C1 as stated fails: at T = 20 and RH = 50 the computed values are not
    within half a hundredth of 8.64, 9.27 and 11.69. *)
Lemma C1_claimed_values_fail :
  ~ (exists ah dp vp,
        _compute_absolute_humidity 20 50 = Ok ah
        /\ _compute_dew_point 20 50 = Ok dp
        /\ _compute_vapor_pressure 20 50 = Ok vp
        /\ Rabs (ah - 8.64) < 0.005
        /\ Rabs (dp - 9.27) < 0.005
        /\ Rabs (vp - 11.69) < 0.005
        /\ _compute_frost_risk_level 20 50 = Ok 0%Z).
Proof.
  intros (ah & dp & vp & Hah & Hdp & Hvp & Eah & Edp & Evp & _).
  rewrite absolute_humidity_20_50 in Hah. injection Hah as <-.
  apply Rabs_def2 in Eah. lra.
Qed.

(** C2 (as the code behaves): at T = 20 and RH = 0.0001 the dew point
    computation returns the number -99.69. *)
Theorem C2_dew_point_tiny_humidity :
  _compute_dew_point 20 0.0001 = Ok (- (99.69)).
Proof. exact dew_point_20_tiny. Qed.

(** C2 as stated fails: at T = 20 and RH = 0.0001 the dew point computation
    does not raise. *)
Lemma C2_tiny_humidity_does_not_raise :
  ~ raises (_compute_dew_point 20 0.0001).
Proof. intros [e He]. rewrite dew_point_20_tiny in He. discriminate. Qed.

(** C3 (as the code behaves): whenever the frost-risk computation returns,
    its result is one of 0, 1, 2, 3, 4, 5; it does return for every
    temperature in [-200, 200] and every humidity in [0.000001, 100]; and
    for every humidity RH <= 0 it raises and produces no level. *)
Theorem C3_risk_level_range (T RH : R) :
  (forall n, _compute_frost_risk_level T RH = Ok n -> (0 <= n <= 5)%Z)
  /\ (-200 <= T <= 200 -> 0.000001 <= RH <= 100 ->
      exists n, _compute_frost_risk_level T RH = Ok n /\ (0 <= n <= 5)%Z)
  /\ (RH <= 0 ->
      raises (_compute_frost_risk_level T RH)
      /\ ~ returns (_compute_frost_risk_level T RH)).
Proof.
  assert (Hrange :
    forall n, _compute_frost_risk_level T RH = Ok n -> (0 <= n <= 5)%Z).
  { intros n Hn.
    apply frost_risk_level_Ok_inv in Hn as (dp & wb & fp & ah & ->).
    apply risk_level_of_range. }
  split; [exact Hrange |]. split.
  - intros HT HRH.
    destruct (frost_risk_level_returns T RH) as [n Hn]; [lra | lra |].
    exists n. split; [exact Hn | now apply Hrange].
  - intros HRH.
    pose proof (frost_risk_level_raises_nonpositive T RH HRH) as Hr.
    split; [exact Hr |].
    intros [n Hn]. destruct Hr as [e He]. congruence.
Qed.

Lemma C3_risk_level_range_witness :
  (exists n, _compute_frost_risk_level (-3) 90 = Ok n /\ (0 <= n <= 5)%Z)
  /\ raises (_compute_frost_risk_level (-3) 0).
Proof.
  split.
  - apply (proj1 (proj2 (C3_risk_level_range (-3) 90))); lra.
  - apply (proj2 (proj2 (C3_risk_level_range (-3) 0))). lra.
Defined.

(** C3 as stated fails: at T = 20 and RH = 0 (finite inputs) the
    frost-risk computation returns no level at all. *)
Lemma C3_zero_humidity_has_no_level :
  ~ (exists n, _compute_frost_risk_level 20 0 = Ok n /\ (0 <= n <= 5)%Z).
Proof. intros (n & Hn & _). rewrite frost_risk_level_20_0 in Hn. discriminate. Qed.

(** C4: the classifier, as a function of (T, dp, wb, fp, ah), never lowers
    its level when one of T, dp, wb, fp decreases and the other four
    inputs are kept. *)
Theorem C4_risk_level_monotone (T dp wb fp ah : R) :
  (forall T', T' <= T ->
     (risk_level_of T dp wb fp ah <= risk_level_of T' dp wb fp ah)%Z)
  /\ (forall dp', dp' <= dp ->
     (risk_level_of T dp wb fp ah <= risk_level_of T dp' wb fp ah)%Z)
  /\ (forall wb', wb' <= wb ->
     (risk_level_of T dp wb fp ah <= risk_level_of T dp wb' fp ah)%Z)
  /\ (forall fp', fp' <= fp ->
     (risk_level_of T dp wb fp ah <= risk_level_of T dp wb fp' ah)%Z).
Proof.
  repeat split; intros x Hx; apply risk_level_of_mono; lra.
Qed.

Lemma C4_risk_level_monotone_witness :
  (risk_level_of 3 1 2 2 3 <= risk_level_of (-6) 1 2 2 3)%Z.
Proof. apply (proj1 (C4_risk_level_monotone 3 1 2 2 3)). lra. Defined.

(** C5: where the dew point is defined, the frost point equals it when it
    is non-negative, and is otherwise the Magnus inversion with the
    ice-phase constants a = 21.875, b = 265.5 applied to the original T and
    RH, rounded to 2 decimals. *)
Theorem C5_frost_point (T RH dp : R) :
  _compute_dew_point T RH = Ok dp ->
  (0 <= dp -> _compute_frost_point T RH = Ok dp)
  /\ (dp < 0 ->
      _compute_frost_point T RH = magnus_tetens 21.875 265.5 T RH).
Proof.
  intros Hdp. unfold _compute_frost_point. rewrite Hdp. cbn [bind].
  split; intros H; destruct (Rlt_dec dp 0) as [Hneg | Hpos]; try lra.
  - rewrite two_decimals_fixed; [reflexivity |].
    now apply dew_point_two_decimals with T RH.
  - unfold magnus_tetens. cbv zeta.
    replace (RH / 100.0) with (RH / 100) by lra. reflexivity.
Qed.

Lemma C5_frost_point_witness :
  _compute_frost_point 20 50 = Ok 9.25
  /\ _compute_frost_point 20 0.0001 = magnus_tetens 21.875 265.5 20 0.0001.
Proof.
  split.
  - apply (proj1 (C5_frost_point 20 50 9.25 dew_point_20_50)). lra.
  - apply (proj2 (C5_frost_point 20 0.0001 _ dew_point_20_tiny)). lra.
Defined.

(** C6: the wet-bulb computation clamps RH into [0, 100]; when the clamped
    RH is below 5 (as for RH = -10 or RH = 3) it returns T - 0.5 rounded to
    2 decimals, so that wet_bulb(5, 3) = 4.5; otherwise it returns Stull's
    formula at the clamped RH and the unclamped T, rounded to 2 decimals. *)
Theorem C6_wet_bulb (T RH : R) :
  (Rmax 0 (Rmin 100 RH) < 5 ->
     _compute_wet_bulb_temperature T RH = Ok (py_round (T - 0.5) 2))
  /\ (5 <= Rmax 0 (Rmin 100 RH) ->
     _compute_wet_bulb_temperature T RH
     = Ok (py_round (stull T (Rmax 0 (Rmin 100 RH))) 2))
  /\ _compute_wet_bulb_temperature T (-10) = Ok (py_round (T - 0.5) 2)
  /\ _compute_wet_bulb_temperature T 3 = Ok (py_round (T - 0.5) 2)
  /\ _compute_wet_bulb_temperature 5 3 = Ok 4.5.
Proof.
  assert (Hm10 : Rmax 0 (Rmin 100 (-10)) < 5).
  { unfold Rmax, Rmin. repeat destruct (Rle_dec _ _); lra. }
  assert (H3 : Rmax 0 (Rmin 100 3) < 5).
  { unfold Rmax, Rmin. repeat destruct (Rle_dec _ _); lra. }
  split; [apply wet_bulb_low |].
  split; [apply wet_bulb_stull |].
  split; [now apply wet_bulb_low |].
  split; [now apply wet_bulb_low |].
  rewrite wet_bulb_low by exact H3.
  rewrite (py_round_2_near _ 450) by lra. f_equal; lra.
Qed.

Lemma C6_wet_bulb_witness :
  _compute_wet_bulb_temperature 7 2 = Ok (py_round (7 - 0.5) 2)
  /\ _compute_wet_bulb_temperature 7 150
     = Ok (py_round (stull 7 (Rmax 0 (Rmin 100 150))) 2).
Proof.
  split.
  - apply (proj1 (C6_wet_bulb 7 2)).
    unfold Rmax, Rmin. repeat destruct (Rle_dec _ _); lra.
  - apply (proj1 (proj2 (C6_wet_bulb 7 150))).
    unfold Rmax, Rmin. repeat destruct (Rle_dec _ _); lra.
Defined.

(** C7: for every T and every RH <= 0 the dew point computation fails
    instead of returning a value; the failure is the logarithm's domain
    error, except at T = -237.7 where the division before it fails. *)
Theorem C7_dew_point_nonpositive_humidity (T RH : R) :
  RH <= 0 ->
  raises (_compute_dew_point T RH)
  /\ ~ returns (_compute_dew_point T RH)
  /\ (T <> -237.7 -> _compute_dew_point T RH = Raise ValueError)
  /\ (T = -237.7 -> _compute_dew_point T RH = Raise ZeroDivisionError).
Proof.
  intros HRH.
  assert (Hlog : T <> -237.7 -> _compute_dew_point T RH = Raise ValueError).
  { intros HT. unfold _compute_dew_point. cbv zeta.
    rewrite py_div_ok by lra. cbn [bind].
    rewrite math_log_domain by lra. reflexivity. }
  assert (Hdiv :
    T = -237.7 -> _compute_dew_point T RH = Raise ZeroDivisionError).
  { intros ->. unfold _compute_dew_point. cbv zeta.
    replace (237.7 + -237.7) with 0 by lra.
    rewrite py_div_zero. reflexivity. }
  assert (Hraises : raises (_compute_dew_point T RH)).
  { destruct (Req_dec_T T (-237.7)) as [HT | HT].
    - exists ZeroDivisionError. now apply Hdiv.
    - exists ValueError. now apply Hlog. }
  repeat split; try assumption.
  intros [v Hv]. destruct Hraises as [e He]. congruence.
Qed.

Lemma C7_dew_point_nonpositive_humidity_witness :
  _compute_dew_point 20 0 = Raise ValueError.
Proof.
  apply (proj1 (proj2 (proj2 (C7_dew_point_nonpositive_humidity 20 0
                                ltac:(lra))))).
  lra.
Defined.

(** C8: the freezing point is computed from the dew point as returned by
    the dew point computation, a value already rounded to 2 decimals: with
    T and that dew point Td taken in Kelvin it is
    Td + 2671.02 / (2954.61 / T + 2.193665 * ln T - 13.3448) - T,
    converted back to degrees Celsius and rounded to 2 decimals. *)
Theorem C8_freezing_point_from_rounded_dew_point (T RH dp : R) :
  _compute_dew_point T RH = Ok dp -> -273.15 < T ->
  two_decimals dp
  /\ py_round dp 2 = dp
  /\ _compute_freezing_point T RH
     = Ok (py_round (freezing_point_kelvin T dp) 2).
Proof.
  intros Hdp HT.
  pose proof (dew_point_two_decimals T RH dp Hdp) as H2.
  split; [exact H2 |].
  split; [now apply two_decimals_fixed |].
  now apply freezing_point_from_dew_point.
Qed.

Lemma C8_freezing_point_from_rounded_dew_point_witness :
  _compute_freezing_point 20 50
  = Ok (py_round (freezing_point_kelvin 20 9.25) 2).
Proof.
  apply (C8_freezing_point_from_rounded_dew_point 20 50 9.25
           dew_point_20_50).
  lra.
Defined.

(** C9: in the absolute-humidity ladder the condition of the third branch
    implies the condition of the second, so the third branch is never
    taken: the ladder behaves as its first two branches alone and never
    contributes level 3. *)
Theorem C9_abs_humidity_third_branch_unreachable (ah T fp : R) (rl : Z) :
  ((ah >=? 2.8) && (T <=? 1) && (fp <=? 0) = true ->
   (ah >=? 2.8) && (T <=? 4) && (fp <=? 0.5) = true)
  /\ abs_humidity_risk ah T fp rl
     = (if (ah <? 2.8) && (T <=? 1) && (fp <=? 0) then Z.max rl 1
        else if (ah >=? 2.8) && (T <=? 4) && (fp <=? 0.5) then Z.max rl 2
        else rl)
  /\ abs_humidity_risk ah T fp 0 <> 3%Z.
Proof.
  assert (Himp :
    (ah >=? 2.8) && (T <=? 1) && (fp <=? 0) = true ->
    (ah >=? 2.8) && (T <=? 4) && (fp <=? 0.5) = true).
  { rewrite !andb_true_iff. unfold py_geb. rewrite !py_leb_true. lra. }
  split; [exact Himp |].
  split.
  - unfold abs_humidity_risk.
    destruct ((ah <? 2.8) && (T <=? 1) && (fp <=? 0)); [reflexivity |].
    destruct ((ah >=? 2.8) && (T <=? 4) && (fp <=? 0.5)) eqn:E2;
      [reflexivity |].
    destruct ((ah >=? 2.8) && (T <=? 1) && (fp <=? 0)) eqn:E3;
      [| reflexivity].
    specialize (Himp eq_refl). discriminate.
  - pose proof (abs_humidity_risk_range ah T fp 0). lia.
Qed.

Lemma C9_abs_humidity_third_branch_unreachable_witness :
  (3 >=? 2.8) && (0 <=? 4) && (-1 <=? 0.5) = true.
Proof.
  apply (proj1 (C9_abs_humidity_third_branch_unreachable 3 0 (-1) 0)).
  rewrite !andb_true_iff. unfold py_geb. rewrite !py_leb_true. lra.
Defined.

(** C10: whenever the frost-risk computation returns on (T, RH), its
    result is 5 exactly when T <= -5. *)
Theorem C10_level_5_iff_cold (T RH : R) (n : Z) :
  _compute_frost_risk_level T RH = Ok n -> (n = 5%Z <-> T <= -5).
Proof.
  intros Hn.
  apply frost_risk_level_Ok_inv in Hn as (dp & wb & fp & ah & ->).
  apply risk_level_of_5.
Qed.

Lemma C10_level_5_iff_cold_witness :
  (0%Z = 5%Z <-> 20 <= -5)
  /\ exists n, _compute_frost_risk_level (-10) 50 = Ok n /\ n = 5%Z.
Proof.
  split.
  - exact (C10_level_5_iff_cold 20 50 0%Z frost_risk_level_20_50).
  - destruct (frost_risk_level_returns (-10) 50) as [n Hn]; [lra | lra |].
    exists n. split; [exact Hn |].
    apply (C10_level_5_iff_cold (-10) 50 n Hn). lra.
Defined.

(** * Further properties of the formula library *)

Section RoundingOrder.

Lemma round_half_even_mono (x y : R) :
  x <= y -> (round_half_even x <= round_half_even y)%Z.
Proof.
  intros Hxy.
  destruct (Z_le_gt_dec (round_half_even x) (round_half_even y))
    as [H | H]; [exact H | exfalso].
  destruct (round_half_even_error x) as [_ Ux].
  destruct (round_half_even_error y) as [Ly _].
  assert (H1 : (round_half_even y + 1 <= round_half_even x)%Z) by lia.
  apply IZR_le in H1. rewrite plus_IZR in H1.
  assert (Heq : x = y) by lra.
  subst y. lia.
Qed.

Lemma pow_10_pos (n : nat) : 0 < 10 ^ n.
Proof. apply pow_lt. lra. Qed.

Lemma py_round_mono (x y : R) (n : nat) :
  x <= y -> py_round x n <= py_round y n.
Proof.
  intros Hxy. unfold py_round. pose proof (pow_10_pos n) as Hp.
  apply Rmult_le_compat_r; [left; now apply Rinv_0_lt_compat |].
  apply IZR_le, round_half_even_mono.
  apply Rmult_le_compat_r; lra.
Qed.

Lemma py_round_zero (n : nat) : py_round 0 n = 0.
Proof.
  unfold py_round. rewrite Rmult_0_l.
  rewrite (round_half_even_near 0 0) by lra.
  unfold Rdiv. apply Rmult_0_l.
Qed.

Lemma py_round_nonneg (x : R) (n : nat) : 0 <= x -> 0 <= py_round x n.
Proof.
  intros Hx. rewrite <- (py_round_zero n). now apply py_round_mono.
Qed.

Lemma py_round_error (x : R) (n : nat) :
  x - / (2 * 10 ^ n) <= py_round x n <= x + / (2 * 10 ^ n).
Proof.
  unfold py_round. pose proof (pow_10_pos n) as Hp.
  destruct (round_half_even_error (x * 10 ^ n)) as [El Eu].
  set (r := IZR (round_half_even (x * 10 ^ n))) in *.
  replace (/ (2 * 10 ^ n)) with (1 / 2 * / 10 ^ n) by (field; lra).
  assert (Hi : 0 < / 10 ^ n) by now apply Rinv_0_lt_compat.
  assert (Hx : x = x * 10 ^ n * / 10 ^ n) by (field; lra).
  unfold Rdiv. split.
  - rewrite Hx at 1. nra.
  - rewrite Hx at 1. nra.
Qed.

End RoundingOrder.

Section MagnusInversion.

Variables a b : R.
Hypothesis a_pos : 0 < a.
Hypothesis b_pos : 0 < b.

Lemma magnus_alpha_lt (T RH : R) :
  - b < T -> 0 < RH <= 100 -> a * T / (b + T) + ln (RH / 100) < a.
Proof.
  intros HT [H0 H100].
  assert (Hl : ln (RH / 100) <= 0).
  { pose proof (ln_le_minus_1 (RH / 100)). lra. }
  replace (a * T / (b + T)) with (a - a * b / (b + T)) by (field; lra).
  assert (0 < a * b / (b + T)); [| lra].
  apply Rdiv_lt_0_compat; nra.
Qed.

Lemma magnus_tetens_domain (T RH : R) :
  - b < T -> 0 < RH <= 100 ->
  magnus_tetens a b T RH = Ok (py_round (magnus_raw a b T RH) 2).
Proof.
  intros HT HRH. pose proof (magnus_alpha_lt T RH HT HRH) as Hlt.
  unfold magnus_tetens, magnus_raw. cbv zeta.
  rewrite py_div_ok by lra. cbn [bind].
  rewrite math_log_ok by lra. cbn [bind].
  rewrite py_div_ok by lra. cbn [bind]. reflexivity.
Qed.

Lemma magnus_raw_le_temperature (T RH : R) :
  - b < T -> 0 < RH <= 100 -> magnus_raw a b T RH <= T.
Proof.
  intros HT HRH. pose proof (magnus_alpha_lt T RH HT HRH) as Hlt.
  assert (Hl : ln (RH / 100) <= 0).
  { pose proof (ln_le_minus_1 (RH / 100)). lra. }
  unfold magnus_raw. cbv zeta.
  set (l := ln (RH / 100)) in *. set (q := a * T / (b + T)) in *.
  assert (Hq : q * (b + T) = a * T) by (unfold q; field; lra).
  apply Rmult_le_reg_r with (a - (q + l)); [lra |].
  replace (b * (q + l) / (a - (q + l)) * (a - (q + l))) with (b * (q + l))
    by (field; lra).
  nra.
Qed.

Lemma magnus_raw_saturated (T : R) : - b < T -> magnus_raw a b T 100 = T.
Proof.
  intros HT. unfold magnus_raw. cbv zeta.
  replace (100 / 100) with 1 by lra. rewrite ln_1.
  assert (Hab : 0 < a * b) by nra.
  field. split; [lra |].
  replace (a * (b + T) - a * T) with (a * b) by ring. lra.
Qed.

End MagnusInversion.

Section DewAndFrost.

Lemma frost_point_of_dew_point (T RH dp : R) :
  _compute_dew_point T RH = Ok dp ->
  _compute_frost_point T RH
  = if Rlt_dec dp 0 then magnus_tetens 21.875 265.5 T RH else Ok dp.
Proof.
  intros Hdp. unfold _compute_frost_point. rewrite Hdp. cbn [bind].
  destruct (Rlt_dec dp 0).
  - unfold magnus_tetens. cbv zeta.
    replace (RH / 100.0) with (RH / 100) by lra. reflexivity.
  - rewrite two_decimals_fixed; [reflexivity |].
    now apply dew_point_two_decimals with T RH.
Qed.

Lemma dew_point_domain (T RH : R) :
  -237.7 < T -> 0 < RH <= 100 ->
  _compute_dew_point T RH = Ok (py_round (magnus_raw 17.27 237.7 T RH) 2).
Proof.
  intros HT HRH. rewrite dew_point_is_magnus_tetens.
  apply magnus_tetens_domain; lra.
Qed.

Lemma frost_point_domain (T RH : R) :
  -237.7 < T -> 0 < RH <= 100 ->
  _compute_frost_point T RH
  = Ok (if Rlt_dec (py_round (magnus_raw 17.27 237.7 T RH) 2) 0
        then py_round (magnus_raw 21.875 265.5 T RH) 2
        else py_round (magnus_raw 17.27 237.7 T RH) 2).
Proof.
  intros HT HRH.
  rewrite (frost_point_of_dew_point T RH _ (dew_point_domain T RH HT HRH)).
  destruct (Rlt_dec _ 0); [| reflexivity].
  apply magnus_tetens_domain; lra.
Qed.

End DewAndFrost.

(** X1: for every temperature in [-200, 200] and every humidity in
    [0.000001, 100] the dew point is defined and exceeds the air
    temperature by at most one hundredth (the effect of the rounding). *)
Theorem X1_dew_point_le_temperature (T RH : R) :
  -200 <= T <= 200 -> 0.000001 <= RH <= 100 ->
  exists dp, _compute_dew_point T RH = Ok dp /\ dp <= T + 0.01.
Proof.
  intros HT HRH. rewrite dew_point_domain by lra.
  eexists. split; [reflexivity |].
  pose proof (py_round_2_error (magnus_raw 17.27 237.7 T RH)) as [_ Hu].
  assert (Hraw : magnus_raw 17.27 237.7 T RH <= T).
  { apply magnus_raw_le_temperature; lra. }
  lra.
Qed.

Lemma X1_dew_point_le_temperature_witness :
  exists dp, _compute_dew_point (-3) 90 = Ok dp /\ dp <= -3 + 0.01.
Proof. apply (X1_dew_point_le_temperature (-3) 90); lra. Defined.

(** X2: at saturation (RH = 100) and every temperature in [-200, 200]
    the dew point and the frost point are both within one hundredth of the
    air temperature. *)
Theorem X2_saturation (T : R) :
  -200 <= T <= 200 ->
  exists d f,
    _compute_dew_point T 100 = Ok d
    /\ _compute_frost_point T 100 = Ok f
    /\ T - 0.01 <= d <= T + 0.01
    /\ T - 0.01 <= f <= T + 0.01.
Proof.
  intros HT. rewrite dew_point_domain, frost_point_domain by lra.
  rewrite !magnus_raw_saturated by lra.
  do 2 eexists. split; [reflexivity |]. split; [reflexivity |].
  pose proof (py_round_2_error T) as He.
  split; [lra |]. destruct (Rlt_dec _ 0); lra.
Qed.

Lemma X2_saturation_witness :
  exists d f,
    _compute_dew_point (-4) 100 = Ok d
    /\ _compute_frost_point (-4) 100 = Ok f
    /\ -4 - 0.01 <= d <= -4 + 0.01
    /\ -4 - 0.01 <= f <= -4 + 0.01.
Proof. apply (X2_saturation (-4)). lra. Defined.

(** X4: for every temperature in [-200, 200] and every humidity in
    [0.000001, 100] the frost point is defined (neither branch fails) and
    exceeds the air temperature by at most one hundredth. *)
Theorem X4_frost_point_le_temperature (T RH : R) :
  -200 <= T <= 200 -> 0.000001 <= RH <= 100 ->
  exists fp, _compute_frost_point T RH = Ok fp /\ fp <= T + 0.01.
Proof.
  intros HT HRH. rewrite frost_point_domain by lra.
  eexists. split; [reflexivity |].
  pose proof (py_round_2_error (magnus_raw 17.27 237.7 T RH)) as [_ Hd].
  pose proof (py_round_2_error (magnus_raw 21.875 265.5 T RH)) as [_ Hf].
  assert (Hraw : magnus_raw 17.27 237.7 T RH <= T).
  { apply magnus_raw_le_temperature; lra. }
  assert (Hice : magnus_raw 21.875 265.5 T RH <= T).
  { apply magnus_raw_le_temperature; lra. }
  destruct (Rlt_dec _ 0); lra.
Qed.

Lemma X4_frost_point_le_temperature_witness :
  exists fp, _compute_frost_point (-3) 90 = Ok fp /\ fp <= -3 + 0.01.
Proof. apply (X4_frost_point_le_temperature (-3) 90); lra. Defined.

Section VaporPressure.

Lemma py_div_by_zero (x y : R) : y = 0 -> py_div x y = Raise ZeroDivisionError.
Proof. intros ->. apply py_div_zero. Qed.

Lemma div_le_of_mul (x y c : R) : 0 < y -> x <= c * y -> x / y <= c.
Proof.
  intros Hy H. apply Rmult_le_reg_r with y; [exact Hy |].
  replace (x / y * y) with x by (field; lra). exact H.
Qed.

Lemma div_nonneg (x y : R) : 0 <= x -> 0 < y -> 0 <= x / y.
Proof.
  intros Hx Hy. apply Rmult_le_pos; [exact Hx |].
  left. now apply Rinv_0_lt_compat.
Qed.

Lemma exp_le_compat (x y : R) : x <= y -> exp x <= exp y.
Proof.
  intros [H | ->]; [left; now apply exp_increasing | right; reflexivity].
Qed.

Lemma saturation_pressure_pos (T : R) : 0 < saturation_pressure T.
Proof.
  unfold saturation_pressure.
  pose proof (exp_pos (17.67 * T / (T + 243.5))). lra.
Qed.

Lemma exp_4_le_81 : exp 4 <= 81.
Proof.
  replace 4 with (- (INR 4 * (- (1)))) by (simpl; lra).
  rewrite exp_neg_mul, Ropp_involutive.
  replace 81 with (3 ^ 4) by lra.
  apply pow_incr. split; [left; apply exp_pos | apply exp_le_3].
Qed.

Lemma saturation_pressure_below_70 (T : R) :
  -243.5 < T -> T <= 70 -> saturation_pressure T <= 495.072.
Proof.
  intros H1 H2. unfold saturation_pressure.
  assert (Hq : 17.67 * T / (T + 243.5) <= 4).
  { apply div_le_of_mul; lra. }
  pose proof (exp_le_compat _ _ Hq) as He.
  pose proof exp_4_le_81. lra.
Qed.

Lemma vapor_pressure_value (T RH : R) :
  T <> -243.5 ->
  _compute_vapor_pressure T RH
  = Ok (py_round (saturation_pressure T * (RH / 100.0)) 2).
Proof.
  intros HT. unfold _compute_vapor_pressure, saturation_pressure. cbv zeta.
  rewrite py_div_ok by lra. reflexivity.
Qed.

Lemma absolute_humidity_value (T RH : R) :
  T <> -243.5 -> T <> -273.15 ->
  _compute_absolute_humidity T RH
  = Ok (py_round
          (saturation_pressure T * (RH / 100.0) * 2.1674 / (T + 273.15)) 2).
Proof.
  intros H1 H2. unfold _compute_absolute_humidity, saturation_pressure.
  cbv zeta. rewrite py_div_ok by lra. cbn [bind].
  rewrite py_div_ok by lra. cbn [bind].
  replace (243.5 + T) with (T + 243.5) by lra. reflexivity.
Qed.

End VaporPressure.

(** X6: the vapor pressure computation divides by zero at T = -243.5;
    for every temperature in (-243.5, 200] and every humidity in [0, 100]
    it returns a non-negative value. *)
Theorem X6_vapor_pressure_domain (T RH : R) :
  (T = -243.5 -> _compute_vapor_pressure T RH = Raise ZeroDivisionError)
  /\ (-243.5 < T <= 200 -> 0 <= RH <= 100 ->
      exists e, _compute_vapor_pressure T RH = Ok e /\ 0 <= e).
Proof.
  split.
  - intros ->. unfold _compute_vapor_pressure.
    rewrite py_div_by_zero by lra. reflexivity.
  - intros HT HRH. rewrite vapor_pressure_value by lra.
    eexists. split; [reflexivity |].
    apply py_round_nonneg. pose proof (saturation_pressure_pos T).
    apply Rmult_le_pos; lra.
Qed.

Lemma X6_vapor_pressure_domain_witness :
  _compute_vapor_pressure (-243.5) 50 = Raise ZeroDivisionError
  /\ exists e, _compute_vapor_pressure 20 50 = Ok e /\ 0 <= e.
Proof.
  split.
  - apply (proj1 (X6_vapor_pressure_domain (-243.5) 50)). lra.
  - apply (proj2 (X6_vapor_pressure_domain 20 50)); lra.
Defined.

(** X7: at a fixed temperature in (-243.5, 200] the vapor pressure is
    non-decreasing in the humidity over [0, 100]. *)
Theorem X7_vapor_pressure_monotone (T RH1 RH2 : R) :
  -243.5 < T <= 200 -> 0 <= RH1 -> RH1 <= RH2 -> RH2 <= 100 ->
  exists e1 e2,
    _compute_vapor_pressure T RH1 = Ok e1
    /\ _compute_vapor_pressure T RH2 = Ok e2
    /\ e1 <= e2.
Proof.
  intros HT HR1 HR12 HR2. rewrite !vapor_pressure_value by lra.
  do 2 eexists. repeat (split; [reflexivity |]).
  pose proof (saturation_pressure_pos T) as Hp.
  apply py_round_mono. apply Rmult_le_compat_l; lra.
Qed.

Lemma X7_vapor_pressure_monotone_witness :
  exists e1 e2,
    _compute_vapor_pressure 0 40 = Ok e1
    /\ _compute_vapor_pressure 0 80 = Ok e2
    /\ e1 <= e2.
Proof. apply (X7_vapor_pressure_monotone 0 40 80); lra. Defined.

(** X8: the absolute humidity computation divides by zero at T = -243.5 and
    at T = -273.15; at a fixed temperature in (-243.5, 200] it returns a
    non-negative value that is non-decreasing in the humidity over
    [0, 100]. *)
Theorem X8_absolute_humidity_domain (T RH1 RH2 : R) :
  (T = -243.5 \/ T = -273.15 ->
     _compute_absolute_humidity T RH1 = Raise ZeroDivisionError)
  /\ (-243.5 < T <= 200 -> 0 <= RH1 -> RH1 <= RH2 -> RH2 <= 100 ->
      exists h1 h2,
        _compute_absolute_humidity T RH1 = Ok h1
        /\ _compute_absolute_humidity T RH2 = Ok h2
        /\ 0 <= h1 /\ h1 <= h2).
Proof.
  split.
  - intros [-> | ->]; unfold _compute_absolute_humidity; cbv zeta.
    + rewrite py_div_by_zero by lra. reflexivity.
    + rewrite py_div_ok by lra. cbn [bind].
      rewrite py_div_by_zero by lra. reflexivity.
  - intros HT HR1 HR12 HR2. rewrite !absolute_humidity_value by lra.
    do 2 eexists. repeat (split; [reflexivity |]).
    pose proof (saturation_pressure_pos T) as Hp.
    assert (Hk : 0 < / (T + 273.15)) by (apply Rinv_0_lt_compat; lra).
    split.
    + apply py_round_nonneg. unfold Rdiv.
      apply Rmult_le_pos; [| lra].
      apply Rmult_le_pos; [| lra].
      apply Rmult_le_pos; lra.
    + apply py_round_mono. unfold Rdiv.
      apply Rmult_le_compat_r; [lra |].
      apply Rmult_le_compat_r; [lra |].
      apply Rmult_le_compat_l; lra.
Qed.

Lemma X8_absolute_humidity_domain_witness :
  _compute_absolute_humidity (-273.15) 50 = Raise ZeroDivisionError
  /\ exists h1 h2,
       _compute_absolute_humidity 20 40 = Ok h1
       /\ _compute_absolute_humidity 20 80 = Ok h2
       /\ 0 <= h1 /\ h1 <= h2.
Proof.
  split.
  - apply (proj1 (X8_absolute_humidity_domain (-273.15) 50 50)). right. lra.
  - apply (proj2 (X8_absolute_humidity_domain 20 40 80)); lra.
Defined.

Lemma humidity_ratio_range (T RH : R) :
  -243.5 < T -> T <= 70 -> 0 <= RH <= 100 ->
  exists W, _compute_humidity_ratio T RH = Ok W /\ 0 <= W <= 0.6.
Proof.
  intros H1 H2 [HR0 HR1]. unfold _compute_humidity_ratio.
  rewrite vapor_pressure_value by lra. cbn [bind]. cbv zeta.
  set (e := py_round (saturation_pressure T * (RH / 100.0)) 2).
  pose proof (saturation_pressure_pos T) as Hp.
  pose proof (saturation_pressure_below_70 T H1 H2) as Hs.
  assert (Hraw : 0 <= saturation_pressure T * (RH / 100.0) <= 495.072).
  { split; [apply Rmult_le_pos; lra |].
    apply Rle_trans with (saturation_pressure T * 1); [| lra].
    apply Rmult_le_compat_l; lra. }
  assert (He : 0 <= e <= 495.08).
  { split; [apply py_round_nonneg; lra |].
    pose proof (py_round_2_error (saturation_pressure T * (RH / 100.0))).
    unfold e. lra. }
  rewrite py_div_ok by lra. cbn [bind].
  eexists. split; [reflexivity |].
  assert (Hq : 0 <= e / (1013.25 - e) <= 0.96).
  { split; [apply div_nonneg; lra | apply div_le_of_mul; lra]. }
  split.
  - apply py_round_nonneg. lra.
  - pose proof (py_round_error (0.622 * (e / (1013.25 - e))) 6) as [_ Hu].
    assert (Hh : / (2 * 10 ^ 6) <= 0.001).
    { replace (2 * 10 ^ 6) with 2000000 by (simpl; lra). lra. }
    lra.
Qed.

(** X9: for every temperature in (-243.5, 70] and every humidity in
    [0, 100] the humidity ratio is defined and lies between 0 and 0.6. *)
Theorem X9_humidity_ratio_range (T RH : R) :
  -243.5 < T -> T <= 70 -> 0 <= RH <= 100 ->
  exists W, _compute_humidity_ratio T RH = Ok W /\ 0 <= W <= 0.6.
Proof. apply humidity_ratio_range. Qed.

Lemma X9_humidity_ratio_range_witness :
  exists W, _compute_humidity_ratio 20 50 = Ok W /\ 0 <= W <= 0.6.
Proof. apply (X9_humidity_ratio_range 20 50); lra. Defined.

(** X10: the humidity ratio has no guard against a vapor pressure equal to
    the assumed atmospheric pressure: at every temperature in [-200, 200],
    every humidity RH with 101324.6 <= es(T) * RH <= 101325.4 (es the
    Magnus saturation pressure) gives the vapor pressure 1013.25 and makes
    the computation fail with a division by zero; such a humidity exists. *)
Theorem X10_humidity_ratio_division_by_zero (T : R) :
  -200 <= T <= 200 ->
  (forall RH,
     101324.6 <= saturation_pressure T * RH <= 101325.4 ->
     _compute_vapor_pressure T RH = Ok 1013.25
     /\ _compute_humidity_ratio T RH = Raise ZeroDivisionError)
  /\ (exists RH,
        0 < RH /\ 101324.6 <= saturation_pressure T * RH <= 101325.4).
Proof.
  intros HT. pose proof (saturation_pressure_pos T) as Hp. split.
  - intros RH HRH.
    assert (Hvp : _compute_vapor_pressure T RH = Ok 1013.25).
    { rewrite vapor_pressure_value by lra.
      rewrite (py_round_2_near _ 101325) by lra. f_equal; lra. }
    split; [exact Hvp |].
    unfold _compute_humidity_ratio. rewrite Hvp. cbn [bind]. cbv zeta.
    rewrite py_div_by_zero by lra. reflexivity.
  - exists (101325 / saturation_pressure T).
    split; [apply Rdiv_lt_0_compat; lra |].
    replace (saturation_pressure T * (101325 / saturation_pressure T))
      with 101325 by (field; lra).
    lra.
Qed.

Lemma X10_humidity_ratio_division_by_zero_witness :
  _compute_vapor_pressure 100 (101325 / saturation_pressure 100)
  = Ok 1013.25
  /\ _compute_humidity_ratio 100 (101325 / saturation_pressure 100)
     = Raise ZeroDivisionError.
Proof.
  apply (proj1 (X10_humidity_ratio_division_by_zero 100 ltac:(lra))).
  pose proof (saturation_pressure_pos 100) as Hp.
  replace (saturation_pressure 100 * (101325 / saturation_pressure 100))
    with 101325 by (field; lra).
  lra.
Defined.

(** X11: where the dew point is defined, the freezing point computation
    returns exactly for temperatures above absolute zero: at T = -273.15 it
    fails with a division by zero and below with a math domain error. *)
Theorem X11_freezing_point_domain (T RH dp : R) :
  _compute_dew_point T RH = Ok dp ->
  (-273.15 < T -> returns (_compute_freezing_point T RH))
  /\ (T = -273.15 ->
      _compute_freezing_point T RH = Raise ZeroDivisionError)
  /\ (T < -273.15 -> _compute_freezing_point T RH = Raise ValueError).
Proof.
  intros Hdp. split; [| split].
  - intros HT. rewrite (freezing_point_from_dew_point T RH dp Hdp HT).
    eexists. reflexivity.
  - intros HT. unfold _compute_freezing_point. rewrite Hdp. cbn [bind].
    cbv zeta. rewrite py_div_by_zero by lra. reflexivity.
  - intros HT. unfold _compute_freezing_point. rewrite Hdp. cbn [bind].
    cbv zeta. rewrite py_div_ok by lra. cbn [bind].
    rewrite math_log_domain by lra. reflexivity.
Qed.

Lemma dew_point_returns_at_50 (T : R) :
  -400 <= T <= -273.15 -> returns (_compute_dew_point T 50).
Proof.
  intros [HT0 HT]. unfold _compute_dew_point. cbv zeta.
  rewrite py_div_ok by lra. cbn [bind].
  rewrite math_log_ok by lra. cbn [bind].
  destruct ln_half_bounds as [Hl Hu].
  assert (Hq : 17.27 < 17.27 * T / (237.7 + T) - 1).
  { replace (17.27 * T / (237.7 + T))
      with (17.27 + 17.27 * 237.7 / (- (237.7 + T))) by (field; lra).
    assert (Hi : / 200 <= / (- (237.7 + T))).
    { apply Rinv_le_contravar; lra. }
    unfold Rdiv. lra. }
  rewrite py_div_ok by lra. cbn [bind]. eexists. reflexivity.
Qed.

Lemma X11_freezing_point_domain_witness :
  returns (_compute_freezing_point 20 50)
  /\ _compute_freezing_point (-273.15) 50 = Raise ZeroDivisionError
  /\ _compute_freezing_point (-300) 50 = Raise ValueError.
Proof.
  split; [| split].
  - apply (proj1 (X11_freezing_point_domain 20 50 9.25 dew_point_20_50)). lra.
  - destruct (dew_point_returns_at_50 (-273.15)) as [dp Hdp]; [lra |].
    apply (proj1 (proj2 (X11_freezing_point_domain (-273.15) 50 dp Hdp))).
    lra.
  - destruct (dew_point_returns_at_50 (-300)) as [dp Hdp]; [lra |].
    apply (proj2 (proj2 (X11_freezing_point_domain (-300) 50 dp Hdp))).
    lra.
Defined.

(** * Further properties of the classifier *)

Section LadderAlgebra.

Ltac unfold_ladders :=
  unfold risk_level_of, temperature_risk, dew_point_risk, wet_bulb_risk,
    freezing_point_risk, abs_humidity_risk, py_geb, py_leb, py_ltb.

Ltac split_comparisons :=
  repeat match goal with
    | |- context [Rle_dec ?x ?y] =>
        destruct (Rle_dec x y); try (exfalso; lra); cbn [andb]
    | |- context [Rlt_dec ?x ?y] =>
        destruct (Rlt_dec x y); try (exfalso; lra); cbn [andb]
    end.

Ltac ladder_cases := unfold_ladders; split_comparisons; lia.

(** A ladder applied to a running level is the maximum of that level and
    of the ladder's own verdict. *)

Lemma temperature_risk_max (T : R) (rl : Z) :
  (0 <= rl)%Z -> temperature_risk T rl = Z.max rl (temperature_risk T 0).
Proof. intros H. ladder_cases. Qed.

Lemma dew_point_risk_max (dp : R) (rl : Z) :
  (0 <= rl)%Z -> dew_point_risk dp rl = Z.max rl (dew_point_risk dp 0).
Proof. intros H. ladder_cases. Qed.

Lemma wet_bulb_risk_max (wb T : R) (rl : Z) :
  (0 <= rl)%Z -> wet_bulb_risk wb T rl = Z.max rl (wet_bulb_risk wb T 0).
Proof. intros H. ladder_cases. Qed.

Lemma freezing_point_risk_max (fp : R) (rl : Z) :
  (0 <= rl)%Z ->
  freezing_point_risk fp rl = Z.max rl (freezing_point_risk fp 0).
Proof. intros H. ladder_cases. Qed.

(** The absolute-humidity ladder adds nothing once the temperature and the
    freezing-point ladders have spoken. *)
Lemma abs_humidity_risk_absorbed (ah T fp : R) (rl : Z) :
  (temperature_risk T 0 <= rl)%Z -> (freezing_point_risk fp 0 <= rl)%Z ->
  abs_humidity_risk ah T fp rl = rl.
Proof.
  unfold temperature_risk, freezing_point_risk, abs_humidity_risk,
    py_geb, py_leb, py_ltb.
  intros Ht Hf. revert Ht Hf. split_comparisons; lia.
Qed.

Lemma risk_level_of_as_max (T dp wb fp ah : R) :
  risk_level_of T dp wb fp ah
  = Z.max (temperature_risk T 0)
      (Z.max (dew_point_risk dp 0)
         (Z.max (wet_bulb_risk wb T 0) (freezing_point_risk fp 0))).
Proof.
  unfold risk_level_of. cbv zeta.
  pose proof (temperature_risk_range T 0) as Ht.
  pose proof (dew_point_risk_range dp 0) as Hd.
  pose proof (wet_bulb_risk_range wb T 0) as Hw.
  pose proof (freezing_point_risk_range fp 0) as Hf.
  rewrite (dew_point_risk_max dp (temperature_risk T 0)) by lia.
  rewrite (wet_bulb_risk_max wb T (Z.max _ _)) by lia.
  rewrite (freezing_point_risk_max fp (Z.max _ _)) by lia.
  rewrite abs_humidity_risk_absorbed by lia.
  lia.
Qed.

End LadderAlgebra.

(** X12: the frost-risk level does not depend on the absolute humidity:
    whenever a branch of the absolute-humidity ladder is taken, the
    temperature or the freezing-point ladder has already reached its
    level. *)
Theorem X12_risk_level_ignores_abs_humidity (T dp wb fp ah ah' : R) :
  risk_level_of T dp wb fp ah = risk_level_of T dp wb fp ah'.
Proof. rewrite !risk_level_of_as_max. reflexivity. Qed.

(** X13: the level produced by the sequential if/elif chains is the
    maximum of the verdicts of the temperature, dew-point, wet-bulb and
    freezing-point ladders, each taken on its own. *)
Theorem X13_risk_level_is_max_of_ladders (T dp wb fp ah : R) :
  risk_level_of T dp wb fp ah
  = Z.max (temperature_risk T 0)
      (Z.max (dew_point_risk dp 0)
         (Z.max (wet_bulb_risk wb T 0) (freezing_point_risk fp 0))).
Proof. apply risk_level_of_as_max. Qed.

(** X14: the classifier reports level 0 exactly when the temperature is
    above 4, the dew point above 2 and the freezing point above 1. *)
Theorem X14_risk_level_zero_iff (T dp wb fp ah : R) :
  risk_level_of T dp wb fp ah = 0%Z <-> 4 < T /\ 2 < dp /\ 1 < fp.
Proof.
  split.
  - rewrite risk_level_of_as_max.
    pose proof (wet_bulb_risk_range wb T 0) as Hw.
    intros H.
    assert (Ht : temperature_risk T 0 = 0%Z).
    { pose proof (temperature_risk_range T 0). lia. }
    assert (Hd : dew_point_risk dp 0 = 0%Z).
    { pose proof (dew_point_risk_range dp 0). lia. }
    assert (Hf : freezing_point_risk fp 0 = 0%Z).
    { pose proof (freezing_point_risk_range fp 0). lia. }
    clear H Hw. revert Ht Hd Hf.
    unfold temperature_risk, dew_point_risk, freezing_point_risk, py_leb.
    repeat match goal with
      | |- context [Rle_dec ?x ?y] => destruct (Rle_dec x y)
      end; intros; try lia; lra.
  - intros (HT & Hdp & Hfp). now apply risk_level_of_none.
Qed.

(** * Properties of the sensor entity *)

Section EntityFacts.

Lemma append_inj_l (s a b : string) :
  String.append s a = String.append s b -> a = b.
Proof.
  induction s as [| c s IH]; cbn; intros H; [exact H |].
  injection H as H. now apply IH.
Qed.

Lemma NoDup_map_injective {A B : Type} (f : A -> B) (l : list A) :
  (forall x y, f x = f y -> x = y) -> NoDup l -> NoDup (map f l).
Proof.
  intros Hf Hl. induction Hl as [| x l Hx Hl IH]; cbn; constructor.
  - intros Hin. apply in_map_iff in Hin as (y & Hy & Hin).
    apply Hf in Hy. now subst y.
  - exact IH.
Qed.

Lemma sensor_type_keys_NoDup : NoDup (dict_keys SENSOR_TYPES).
Proof.
  cbn. repeat constructor; cbn; intuition discriminate.
Qed.

Lemma create_sensors_spec (entry_id name te he : string) (l : list string) :
  Forall (fun k => dict_get SENSOR_TYPES k <> None) l ->
  exists sensors,
    create_sensors entry_id name te he l = Some sensors
    /\ map _sensor_type sensors = l
    /\ map _attr_unique_id sensors
       = map (fun k => String.append entry_id (String.append "_" k)) l
    /\ Forall (fun s =>
                 _temperature_entity s = te
                 /\ _humidity_entity s = he
                 /\ identifiers (_attr_device_info s) = [(DOMAIN, entry_id)]
                 /\ _attr_native_value s = None) sensors.
Proof.
  induction l as [| k l IH]; intros Hl.
  - exists []. cbn. repeat split; constructor.
  - inversion Hl as [| ? ? Hk Hl']; subst.
    destruct (IH Hl') as (sensors & Hc & Ht & Hu & Hf).
    cbn [create_sensors]. unfold __init__.
    destruct (dict_get SENSOR_TYPES k) as [info |]; [| contradiction].
    rewrite Hc. eexists. split; [reflexivity |].
    cbn [map _sensor_type _attr_unique_id]. rewrite Ht, Hu.
    repeat split. constructor; [cbn; repeat split | exact Hf].
Qed.

Lemma int_of_float_of_int (n : Z) :
  (0 <= n)%Z -> int_of_float (float_of_int n) = n.
Proof.
  intros Hn. unfold int_of_float, float_of_int.
  destruct (Rle_dec 0 (IZR n)) as [_ | H].
  - apply Int_part_unique. lra.
  - exfalso. apply H. now apply IZR_le.
Qed.

Lemma level_get_in_range (n : Z) :
  (0 <= n <= 5)%Z -> exists d, level_get FROST_RISK_LEVELS n = Some d.
Proof.
  intros Hn.
  assert (H : (n = 0 \/ n = 1 \/ n = 2 \/ n = 3 \/ n = 4 \/ n = 5)%Z) by lia.
  destruct H as [-> | [-> | [-> | [-> | [-> | ->]]]]];
    eexists; reflexivity.
Qed.

End EntityFacts.

(** X15: [async_setup_entry] creates one sensor for each of the eight keys
    of [SENSOR_TYPES], in order; their unique ids are pairwise distinct,
    and all of them watch the configured source entities, belong to the
    same device and start without a value. *)
Theorem X15_setup_creates_distinct_sensors
    (entry_id name te he : string) (config : dict string) :
  dict_get config CONF_NAME = Some name ->
  dict_get config CONF_TEMPERATURE_SENSOR = Some te ->
  dict_get config CONF_HUMIDITY_SENSOR = Some he ->
  exists sensors,
    async_setup_entry entry_id config = Some sensors
    /\ List.length sensors = 8%nat
    /\ map _sensor_type sensors = dict_keys SENSOR_TYPES
    /\ NoDup (map _attr_unique_id sensors)
    /\ Forall (fun s =>
                 _temperature_entity s = te
                 /\ _humidity_entity s = he
                 /\ identifiers (_attr_device_info s) = [(DOMAIN, entry_id)]
                 /\ _attr_native_value s = None) sensors.
Proof.
  intros Hn Ht Hh. unfold async_setup_entry. rewrite Hn, Ht, Hh.
  destruct (create_sensors_spec entry_id name te he (dict_keys SENSOR_TYPES))
    as (sensors & Hc & Hty & Hu & Hf).
  { cbn. repeat constructor; discriminate. }
  exists sensors. split; [exact Hc |].
  split; [rewrite <- (length_map _sensor_type), Hty; reflexivity |].
  split; [exact Hty |]. split; [| exact Hf].
  rewrite Hu. apply NoDup_map_injective.
  - intros x y H. apply append_inj_l in H. now apply append_inj_l in H.
  - apply sensor_type_keys_NoDup.
Qed.

Lemma X15_setup_creates_distinct_sensors_witness :
  exists sensors,
    async_setup_entry "e1"
      [(CONF_NAME, "Garden"); (CONF_TEMPERATURE_SENSOR, "sensor.t");
       (CONF_HUMIDITY_SENSOR, "sensor.h")]%string = Some sensors
    /\ List.length sensors = 8%nat
    /\ map _sensor_type sensors = dict_keys SENSOR_TYPES
    /\ NoDup (map _attr_unique_id sensors)
    /\ Forall (fun s =>
                 _temperature_entity s = "sensor.t"%string
                 /\ _humidity_entity s = "sensor.h"%string
                 /\ identifiers (_attr_device_info s)
                    = [(DOMAIN, "e1"%string)]
                 /\ _attr_native_value s = None) sensors.
Proof.
  apply (X15_setup_creates_distinct_sensors "e1" "Garden" "sensor.t"
           "sensor.h"); reflexivity.
Defined.

Section Dispatch.

Lemma frost_point_returns (T RH : R) :
  -237.7 < T -> 0 < RH <= 100 -> returns (_compute_frost_point T RH).
Proof.
  intros HT HRH. rewrite frost_point_domain by assumption.
  eexists. reflexivity.
Qed.

Lemma freezing_point_returns (T RH : R) :
  -237.7 < T -> 0 < RH <= 100 -> returns (_compute_freezing_point T RH).
Proof.
  intros HT HRH.
  rewrite (freezing_point_from_dew_point T RH _
             (dew_point_domain T RH HT HRH)) by lra.
  eexists. reflexivity.
Qed.

Lemma bind_returns {A B : Type} (m : result A) (f : A -> B) :
  returns m -> exists v, (x <- m ;; Ok (Some (f x))) = Ok (Some v).
Proof. intros [a ->]. cbn. eexists. reflexivity. Qed.

End Dispatch.

(** X16: a sensor of any of the eight types of [SENSOR_TYPES] that holds a
    temperature in [-200, 70] and a humidity in [0.000001, 100] computes a
    value (no exception and no [None]); a sensor of any other type, or one
    that misses a reading, yields [None]. *)
Theorem X16_calculate_value_covers_sensor_types (self : sensor) :
  (forall T RH,
     In (_sensor_type self) (dict_keys SENSOR_TYPES) ->
     _temperature self = Some T -> _humidity self = Some RH ->
     -200 <= T <= 70 -> 0.000001 <= RH <= 100 ->
     exists v, _calculate_value self = Ok (Some v))
  /\ (~ In (_sensor_type self) (dict_keys SENSOR_TYPES) ->
      _calculate_value self = Ok None)
  /\ (_temperature self = None \/ _humidity self = None ->
      _calculate_value self = Ok None).
Proof.
  split; [| split].
  - intros T RH Hin HT HRH H1 H3. unfold _calculate_value.
    rewrite HT, HRH. cbn in Hin.
    destruct Hin as [H | [H | [H | [H | [H | [H | [H | [H | []]]]]]]]];
      rewrite <- H; cbn [String.eqb Ascii.eqb Bool.eqb
                         SENSOR_TYPE_ABSOLUTE_HUMIDITY SENSOR_TYPE_DEW_POINT
                         SENSOR_TYPE_FROST_POINT SENSOR_TYPE_FREEZING_POINT
                         SENSOR_TYPE_WET_BULB SENSOR_TYPE_VAPOR_PRESSURE
                         SENSOR_TYPE_HUMIDITY_RATIO SENSOR_TYPE_FROST_RISK];
      apply (bind_returns _ (fun x => x)) || apply bind_returns.
    + apply absolute_humidity_returns. lra.
    + apply dew_point_returns; lra.
    + apply frost_point_returns; lra.
    + apply freezing_point_returns; lra.
    + apply wet_bulb_returns.
    + rewrite vapor_pressure_value by lra. eexists. reflexivity.
    + destruct (humidity_ratio_range T RH) as (W & -> & _); try lra.
      eexists. reflexivity.
    + apply frost_risk_level_returns; lra.
  - intros Hnot. unfold _calculate_value.
    destruct (_temperature self); [| reflexivity].
    destruct (_humidity self); [| reflexivity].
    cbn in Hnot.
    repeat match goal with
      | |- context [String.eqb ?a ?b] =>
          let E := fresh "E" in
          destruct (String.eqb_spec a b) as [E | E];
          [exfalso; apply Hnot; rewrite E; tauto |]
      end.
    reflexivity.
  - intros [H | H]; unfold _calculate_value; rewrite H.
    + reflexivity.
    + destruct (_temperature self); reflexivity.
Qed.

Lemma X16_calculate_value_covers_sensor_types_witness :
  exists s,
    __init__ "e1" "Garden" "sensor.t" "sensor.h" SENSOR_TYPE_HUMIDITY_RATIO
    = Some s
    /\ (exists v,
          _calculate_value
            (with_humidity (with_temperature s (Some 20)) (Some 50))
          = Ok (Some v))
    /\ _calculate_value (with_temperature s (Some 20)) = Ok None.
Proof.
  eexists. split; [reflexivity |]. split.
  - apply (proj1 (X16_calculate_value_covers_sensor_types _) 20 50);
      cbn; try lra; try reflexivity; tauto.
  - apply (proj2 (proj2 (X16_calculate_value_covers_sensor_types _))).
    right. reflexivity.
Defined.

(** X17: the value computed by a frost-risk sensor is one of 0.0, ..., 5.0,
    and once it is stored the extra state attributes carry the English and
    Dutch descriptions of that level: the lookup in [FROST_RISK_LEVELS]
    never misses. *)
Theorem X17_frost_risk_attributes (self : sensor) (v : R) :
  _sensor_type self = SENSOR_TYPE_FROST_RISK ->
  _calculate_value self = Ok (Some v) ->
  exists level d,
    v = IZR level
    /\ (0 <= level <= 5)%Z
    /\ level_get FROST_RISK_LEVELS level = Some d
    /\ extra_state_attributes (with_native_value self (Some v))
       = [(ATTR_TEMPERATURE, AttrFloat (_temperature self));
          (ATTR_HUMIDITY, AttrFloat (_humidity self));
          ("description_en"%string, AttrStr (en d));
          ("description_nl"%string, AttrStr (nl d))].
Proof.
  intros Hty Hv. unfold _calculate_value in Hv. rewrite Hty in Hv.
  destruct (_temperature self) as [T |] eqn:HT; [| discriminate].
  destruct (_humidity self) as [RH |] eqn:HRH; [| discriminate].
  cbn in Hv.
  destruct (_compute_frost_risk_level T RH) as [n | e] eqn:Hn;
    [| discriminate].
  cbn in Hv. injection Hv as <-.
  assert (Hr : (0 <= n <= 5)%Z).
  { apply frost_risk_level_Ok_inv in Hn as (dp & wb & fp & ah & ->).
    apply risk_level_of_range. }
  destruct (level_get_in_range n Hr) as [d Hd].
  exists n, d. split; [reflexivity |]. split; [exact Hr |].
  split; [exact Hd |].
  unfold extra_state_attributes. cbn [_sensor_type with_native_value].
  rewrite Hty. cbn [_attr_native_value _temperature _humidity].
  change (String.eqb SENSOR_TYPE_FROST_RISK SENSOR_TYPE_FROST_RISK)
    with true.
  cbv iota zeta.
  cbn [with_native_value _attr_native_value _temperature _humidity].
  rewrite int_of_float_of_int by lia.
  rewrite Hd, HT, HRH. reflexivity.
Qed.

Lemma X17_frost_risk_attributes_witness :
  exists s level d,
    __init__ "e1" "Garden" "sensor.t" "sensor.h" SENSOR_TYPE_FROST_RISK
    = Some s
    /\ (0 <= level <= 5)%Z
    /\ level_get FROST_RISK_LEVELS level = Some d
    /\ extra_state_attributes
         (with_native_value
            (with_humidity (with_temperature s (Some 20)) (Some 50))
            (Some (IZR level)))
       = [(ATTR_TEMPERATURE, AttrFloat (Some 20));
          (ATTR_HUMIDITY, AttrFloat (Some 50));
          ("description_en"%string, AttrStr (en d));
          ("description_nl"%string, AttrStr (nl d))].
Proof.
  eexists.
  destruct (X17_frost_risk_attributes
              (with_humidity
                 (with_temperature
                    {| _entry_id := "e1"; _base_name := "Garden";
                       _temperature_entity := "sensor.t";
                       _humidity_entity := "sensor.h";
                       _sensor_type := SENSOR_TYPE_FROST_RISK;
                       _temperature := None; _humidity := None;
                       _attr_name := "Garden Frost Risk Level";
                       _attr_unique_id := "e1_frost_risk_level";
                       _attr_native_unit_of_measurement := None;
                       _attr_device_class := None;
                       _attr_state_class := None;
                       _attr_icon := "mdi:snowflake-alert";
                       _attr_device_info :=
                         {| identifiers := [(DOMAIN, "e1"%string)];
                            device_name := "Garden";
                            manufacturer := "Frost Risks";
                            model := "Frost Risk Monitor" |};
                       _attr_native_value := None |}
                    (Some 20)) (Some 50)) 0 eq_refl)
    as (level & d & Hv & Hr & Hd & Hattrs).
  { unfold _calculate_value. cbn. rewrite frost_risk_level_20_50.
    reflexivity. }
  exists level, d. split; [reflexivity |]. split; [exact Hr |].
  split; [exact Hd |]. rewrite <- Hv. exact Hattrs.
Defined.

Section UpdateFacts.

Variable float_of_str : string -> option R.
Variable states_get : string -> option string.

Lemma read_source_None (entity_id : string) :
  states_get entity_id = None
  \/ states_get entity_id = Some STATE_UNKNOWN
  \/ states_get entity_id = Some STATE_UNAVAILABLE
  \/ (exists st, states_get entity_id = Some st /\ float_of_str st = None) ->
  read_source float_of_str states_get entity_id = None.
Proof.
  unfold read_source.
  intros [H | [H | [H | (st & H & Hf)]]]; rewrite H; try reflexivity.
  destruct (String.eqb st STATE_UNKNOWN); [reflexivity |].
  destruct (String.eqb st STATE_UNAVAILABLE); [reflexivity | exact Hf].
Qed.

Lemma async_update_missing (self : sensor) :
  read_source float_of_str states_get (_temperature_entity self) = None
  \/ read_source float_of_str states_get (_humidity_entity self) = None ->
  snd (async_update float_of_str states_get self) = None
  /\ _attr_native_value (fst (async_update float_of_str states_get self))
     = None.
Proof.
  unfold async_update. cbv zeta.
  cbn [with_temperature with_humidity _temperature _humidity
       _temperature_entity _humidity_entity].
  intros [H | H]; rewrite H.
  - split; reflexivity.
  - destruct (read_source float_of_str states_get (_temperature_entity self));
      split; reflexivity.
Qed.

Lemma calculate_value_frame (self : sensor) (v : option R) :
  _calculate_value (with_native_value self v) = _calculate_value self.
Proof. reflexivity. Qed.

Lemma calculate_value_update_frame (self : sensor) (t h v : option R) :
  _calculate_value (with_humidity (with_temperature self t) h)
  = _calculate_value
      (with_humidity
         (with_temperature
            (with_native_value (with_humidity (with_temperature self t) h) v)
            t) h).
Proof. reflexivity. Qed.

Lemma update_fields_absorb (self : sensor) (t h v v' : option R) :
  (with_native_value
     (with_humidity
        (with_temperature
           (with_native_value (with_humidity (with_temperature self t) h) v')
           t) h) v,
   @None exn)
  = (with_native_value (with_humidity (with_temperature self t) h) v, None).
Proof. destruct self. reflexivity. Qed.

Lemma update_readings_absorb (self : sensor) (t h : option R) :
  with_humidity (with_temperature (with_humidity (with_temperature self t) h)
                   t) h
  = with_humidity (with_temperature self t) h.
Proof. destruct self. reflexivity. Qed.

End UpdateFacts.

(** X18: when one of the two source entities has no state, is "unknown"
    or "unavailable", or holds a string that is not a number, the update
    raises nothing and leaves the sensor without a value. *)
Theorem X18_update_without_reading
    (float_of_str : string -> option R) (states_get : string -> option string)
    (self : sensor) (entity_id : string) :
  entity_id = _temperature_entity self \/ entity_id = _humidity_entity self ->
  states_get entity_id = None
  \/ states_get entity_id = Some STATE_UNKNOWN
  \/ states_get entity_id = Some STATE_UNAVAILABLE
  \/ (exists st, states_get entity_id = Some st /\ float_of_str st = None) ->
  snd (async_update float_of_str states_get self) = None
  /\ _attr_native_value (fst (async_update float_of_str states_get self))
     = None.
Proof.
  intros He Hs. apply async_update_missing.
  apply (read_source_None float_of_str) in Hs.
  destruct He as [<- | <-]; [left | right]; exact Hs.
Qed.

Lemma X18_update_without_reading_witness :
  exists s,
    __init__ "e1" "Garden" "sensor.t" "sensor.h" SENSOR_TYPE_DEW_POINT
    = Some s
    /\ snd (async_update (fun _ => Some 20)
              (fun e => if String.eqb e "sensor.t" then Some "unknown"
                        else Some "50")%string s) = None
    /\ _attr_native_value
         (fst (async_update (fun _ => Some 20)
                 (fun e => if String.eqb e "sensor.t" then Some "unknown"
                           else Some "50")%string s)) = None.
Proof.
  eexists. split; [reflexivity |].
  apply (X18_update_without_reading _ _ _ "sensor.t"%string).
  - left. reflexivity.
  - right. left. reflexivity.
Defined.

(** X19: when the humidity reading is zero or negative (and the
    temperature reading is not -237.7), the update of a dew-point,
    frost-point, freezing-point or frost-risk sensor lets the logarithm's
    [ValueError] escape: the readings are stored, but the sensor keeps the
    value it had before the call. *)
Theorem X19_update_raises_on_nonpositive_humidity
    (float_of_str : string -> option R) (states_get : string -> option string)
    (self : sensor) (T RH : R) :
  In (_sensor_type self)
    [SENSOR_TYPE_DEW_POINT; SENSOR_TYPE_FROST_POINT;
     SENSOR_TYPE_FREEZING_POINT; SENSOR_TYPE_FROST_RISK] ->
  read_source float_of_str states_get (_temperature_entity self) = Some T ->
  read_source float_of_str states_get (_humidity_entity self) = Some RH ->
  RH <= 0 -> T <> -237.7 ->
  async_update float_of_str states_get self
  = (with_humidity (with_temperature self (Some T)) (Some RH),
     Some ValueError)
  /\ _attr_native_value (fst (async_update float_of_str states_get self))
     = _attr_native_value self.
Proof.
  intros Hin HT HRH Hle Hne.
  assert (Hdp : _compute_dew_point T RH = Raise ValueError).
  { unfold _compute_dew_point. cbv zeta.
    rewrite py_div_ok by lra. cbn [bind].
    rewrite math_log_domain by lra. reflexivity. }
  assert (Hup : async_update float_of_str states_get self
                = (with_humidity (with_temperature self (Some T)) (Some RH),
                   Some ValueError)).
  { unfold async_update. cbv zeta.
    cbn [with_temperature with_humidity _temperature _humidity
         _temperature_entity _humidity_entity].
    rewrite HT, HRH. unfold _calculate_value.
    cbn [with_temperature with_humidity _temperature _humidity _sensor_type].
    cbn in Hin. destruct Hin as [H | [H | [H | [H | []]]]]; rewrite <- H;
      cbn [String.eqb Ascii.eqb Bool.eqb
           SENSOR_TYPE_ABSOLUTE_HUMIDITY SENSOR_TYPE_DEW_POINT
           SENSOR_TYPE_FROST_POINT SENSOR_TYPE_FREEZING_POINT
           SENSOR_TYPE_WET_BULB SENSOR_TYPE_VAPOR_PRESSURE
           SENSOR_TYPE_HUMIDITY_RATIO SENSOR_TYPE_FROST_RISK].
    - rewrite Hdp. reflexivity.
    - unfold _compute_frost_point. rewrite Hdp. reflexivity.
    - unfold _compute_freezing_point. rewrite Hdp. reflexivity.
    - unfold _compute_frost_risk_level. rewrite Hdp. reflexivity. }
  split; [exact Hup |]. rewrite Hup. reflexivity.
Qed.

Lemma X19_update_raises_on_nonpositive_humidity_witness :
  exists s,
    __init__ "e1" "Garden" "sensor.t" "sensor.h" SENSOR_TYPE_FROST_RISK
    = Some s
    /\ async_update (fun st => if String.eqb st "5" then Some 5 else Some 0)
         (fun e => if String.eqb e "sensor.t" then Some "5" else Some "0")
         %string s
       = (with_humidity (with_temperature s (Some 5)) (Some 0),
          Some ValueError).
Proof.
  eexists. split; [reflexivity |].
  apply (X19_update_raises_on_nonpositive_humidity
           (fun st => if String.eqb st "5" then Some 5 else Some 0)
           (fun e => if String.eqb e "sensor.t" then Some "5" else Some "0")
           %string _ 5 0).
  - cbn. tauto.
  - reflexivity.
  - reflexivity.
  - lra.
  - lra.
Defined.



(** X21: an update only depends on the states of the source entities:
    running it a second time on the sensor it produced gives the same
    sensor and the same outcome. *)
Theorem X21_update_idempotent
    (float_of_str : string -> option R) (states_get : string -> option string)
    (self : sensor) :
  async_update float_of_str states_get
    (fst (async_update float_of_str states_get self))
  = async_update float_of_str states_get self.
Proof.
  set (te := _temperature_entity self). set (he := _humidity_entity self).
  assert (Hunfold : forall s,
    _temperature_entity s = te -> _humidity_entity s = he ->
    async_update float_of_str states_get s
    = match read_source float_of_str states_get te,
            read_source float_of_str states_get he with
      | Some t, Some h =>
          match _calculate_value
                  (with_humidity (with_temperature s (Some t)) (Some h)) with
          | Ok v =>
              (with_native_value
                 (with_humidity (with_temperature s (Some t)) (Some h)) v,
               None)
          | Raise e =>
              (with_humidity (with_temperature s (Some t)) (Some h), Some e)
          end
      | t, h =>
          (with_native_value (with_humidity (with_temperature s t) h) None,
           None)
      end).
  { intros s Ht Hh. unfold async_update. cbv zeta.
    cbn [with_temperature with_humidity _temperature _humidity
         _temperature_entity _humidity_entity].
    rewrite Ht, Hh.
    destruct (read_source float_of_str states_get te);
      destruct (read_source float_of_str states_get he); reflexivity. }
  rewrite (Hunfold self eq_refl eq_refl).
  destruct (read_source float_of_str states_get te) as [t |];
    destruct (read_source float_of_str states_get he) as [h |];
    cbn [fst];
    try (rewrite Hunfold by reflexivity; apply update_fields_absorb).
  destruct (_calculate_value
              (with_humidity (with_temperature self (Some t)) (Some h)))
    as [v | e] eqn:E; cbn [fst]; rewrite Hunfold by reflexivity.
  - rewrite <- (calculate_value_update_frame self (Some t) (Some h) v), E.
    rewrite update_fields_absorb. reflexivity.
  - rewrite update_readings_absorb, E. reflexivity.
Qed.

Lemma clamp_idempotent (RH : R) :
  Rmax 0 (Rmin 100 (Rmax 0 (Rmin 100 RH))) = Rmax 0 (Rmin 100 RH).
Proof.
  unfold Rmax, Rmin. repeat destruct (Rle_dec _ _); lra.
Qed.

Lemma wet_bulb_of_clamp (T RH : R) :
  _compute_wet_bulb_temperature T RH
  = _compute_wet_bulb_temperature T (Rmax 0 (Rmin 100 RH)).
Proof.
  destruct (Rlt_dec (Rmax 0 (Rmin 100 RH)) 5) as [H | H].
  - rewrite (wet_bulb_low T RH H).
    rewrite wet_bulb_low by (rewrite clamp_idempotent; exact H).
    reflexivity.
  - rewrite (wet_bulb_stull T RH) by lra.
    rewrite (wet_bulb_stull T (Rmax 0 (Rmin 100 RH)))
      by (rewrite clamp_idempotent; lra).
    rewrite clamp_idempotent. reflexivity.
Qed.

(** X22: the wet-bulb computation never raises, and a humidity outside
    [0, 100] is treated exactly like the nearest bound. *)
Theorem X22_wet_bulb_total_and_clamped (T RH : R) :
  returns (_compute_wet_bulb_temperature T RH)
  /\ (100 <= RH ->
      _compute_wet_bulb_temperature T RH
      = _compute_wet_bulb_temperature T 100)
  /\ (RH <= 0 ->
      _compute_wet_bulb_temperature T RH = _compute_wet_bulb_temperature T 0).
Proof.
  split; [apply wet_bulb_returns |]. split; intros H.
  - rewrite (wet_bulb_of_clamp T RH), (wet_bulb_of_clamp T 100).
    f_equal. unfold Rmax, Rmin. repeat destruct (Rle_dec _ _); lra.
  - rewrite (wet_bulb_of_clamp T RH), (wet_bulb_of_clamp T 0).
    f_equal. unfold Rmax, Rmin. repeat destruct (Rle_dec _ _); lra.
Qed.

Lemma X22_wet_bulb_total_and_clamped_witness :
  _compute_wet_bulb_temperature 10 130 = _compute_wet_bulb_temperature 10 100
  /\ _compute_wet_bulb_temperature 10 (-4)
     = _compute_wet_bulb_temperature 10 0.
Proof.
  split.
  - apply (proj1 (proj2 (X22_wet_bulb_total_and_clamped 10 130))). lra.
  - apply (proj2 (proj2 (X22_wet_bulb_total_and_clamped 10 (-4)))). lra.
Defined.
